(** * The session channel client of the chat frontend

    A shallow embedding of [WebSocketService]
    (frontend/src/services/websocket.ts, kept in this tree at the end of
    src/frontend/src/services/api.ts) together with the part of the browser
    it talks to: the [WebSocket] objects it constructs, the timers it sets,
    the promises it returns and the console.

    The service is single threaded and event driven.  Every method and every
    transport callback runs to completion, so each of them is a function from
    world to world; the browser is a sequence of events applied in order. *)

From stdpp Require Import gmap strings list pretty.
From Stdlib Require Import ZArith Lia.

Set Warnings "-register-all".

Local Open Scope string_scope.
Local Open Scope Z_scope.

(** ** JavaScript values *)

(** The values that travel through the service: what [JSON.parse] returns,
    what callers pass as [metadata], what is handed to [JSON.stringify].
    Objects keep their properties in insertion order, as JavaScript does.
    Numbers are restricted to integers. *)
Inductive JSValue : Type :=
| JUndefined
| JNull
| JBool (b : bool)
| JNum (n : Z)
| JStr (s : string)
| JArr (items : list JSValue)
| JObj (props : list (string * JSValue)).

(** [o[k]] for an own property. *)
Fixpoint obj_get (k : string) (o : list (string * JSValue)) : option JSValue :=
  match o with
  | [] => None
  | (k', v) :: rest => if String.eqb k k' then Some v else obj_get k rest
  end.

(** [o[k] = v]: an existing property keeps its place, a new one goes last. *)
Fixpoint obj_set (k : string) (v : JSValue) (o : list (string * JSValue))
  : list (string * JSValue) :=
  match o with
  | [] => [(k, v)]
  | (k', v') :: rest =>
      if String.eqb k k' then (k', v) :: rest else (k', v') :: obj_set k v rest
  end.

(** [{...src}] copied into the object literal under construction [dst];
    spreading [undefined] copies nothing. *)
Definition obj_spread (src : option (list (string * JSValue)))
    (dst : list (string * JSValue)) : list (string * JSValue) :=
  fold_left (fun acc kv => obj_set kv.1 kv.2 acc) (default [] src) dst.

(** An optional string argument as the value the callee sees. *)
Definition opt_string (o : option string) : JSValue :=
  match o with
  | Some s => JStr s
  | None => JUndefined
  end.

(** ** The transport *)

(** [WebSocket.CONNECTING], [OPEN], [CLOSING], [CLOSED]. *)
Inductive ReadyState : Type := CONNECTING | OPEN | CLOSING | CLOSED.

Definition ReadyState_eqb (a b : ReadyState) : bool :=
  match a, b with
  | CONNECTING, CONNECTING | OPEN, OPEN | CLOSING, CLOSING | CLOSED, CLOSED => true
  | _, _ => false
  end.

Definition ReadyState_code (r : ReadyState) : Z :=
  match r with
  | CONNECTING => 0
  | OPEN => 1
  | CLOSING => 2
  | CLOSED => 3
  end.

(** One [WebSocket] object.  The four callbacks [connect] installs on it
    close over the service and over the [resolve]/[reject] pair of the
    promise of that [connect] call; [settles] names that promise.
    [close_fired] tells whether the browser has already delivered the close
    event of this socket (it does so once). *)
Record Socket : Type := mkSocket {
  url : string;
  readyState : ReadyState;
  settles : nat;
  close_fired : bool
}.

Inductive PromiseState : Type :=
| Pending
| Resolved
| Rejected (reason : JSValue).

(** Who holds the promise: the reconnect timer chains
    [.catch(console.error)] on it, other callers are not modelled further. *)
Inductive PromiseOrigin : Type := ByCaller | ByTimer.

Record Promise : Type := mkPromise {
  pstate : PromiseState;
  porigin : PromiseOrigin
}.

Inductive ConsoleLevel : Type := Log | Error.

(** ** Subscribers *)

(** The public methods that return nothing the caller could branch on.
    [H] is the type of handler bodies, so that [onMessage] can be called
    from inside a handler as well. *)
Inductive ApiCallF (H : Type) : Type :=
| Connect
| Disconnect
| SendMessage (content : string) (metadata : option (list (string * JSValue)))
    (provider : option string)
| RequestMessageHistory
| Ping
| OnMessage (type : string) (handler : JSValue -> H)
| OffMessage (type : string).

Arguments Connect {H}.
Arguments Disconnect {H}.
Arguments SendMessage {H} content metadata provider.
Arguments RequestMessageHistory {H}.
Arguments Ping {H}.
Arguments OnMessage {H} type handler.
Arguments OffMessage {H} type.

(** What a subscriber callback [(data: any) => void] can do: return, throw,
    act on something outside the service (component state, say), or use the
    service through its public methods, branching on what the two getters
    tell it. *)
Inductive HandlerProg : Type :=
| Return
| Throw (err : JSValue)
| Effect (note : string) (k : HandlerProg)
| Call (c : ApiCallF HandlerProg) (k : HandlerProg)
| AskIsConnected (k : bool -> HandlerProg)
| AskReadyState (k : option Z -> HandlerProg).

Definition Handler : Type := JSValue -> HandlerProg.
Definition ApiCall : Type := ApiCallF HandlerProg.

(** ** State *)

(** The private fields of [WebSocketService].  [ws] holds the identity of a
    socket: its index in the table of sockets constructed so far. *)
Record WebSocketService : Type := mkService {
  ws : option nat;
  sessionId : string;
  reconnectAttempts : Z;
  maxReconnectAttempts : Z;
  reconnectDelay : Z;
  messageHandlers : gmap string Handler;
  isConnecting : bool
}.

(** Everything else the code reads or writes. *)
Record Env : Type := mkEnv {
  REACT_APP_WS_URL : option string;   (* process.env.REACT_APP_WS_URL *)
  now : Z;                            (* the clock, ms since the epoch *)
  sockets : list Socket;              (* every socket constructed so far *)
  promises : list Promise;            (* every promise connect() returned *)
  timers : list Z;                    (* pending setTimeout delays *)
  scheduled : list Z;                 (* all delays ever given to setTimeout *)
  sent : list (nat * JSValue);        (* (socket, object given to JSON.stringify) *)
  console : list (ConsoleLevel * list JSValue);
  invoked : list (JSValue * JSValue); (* handler calls: (key it was found under, data) *)
  effects : list string               (* what handlers did outside the service *)
}.

Record World : Type := mkWorld {
  svc : WebSocketService;
  env : Env
}.

Inductive Outcome : Type :=
| Returned (w : World)
| Threw (err : JSValue) (w : World).

Definition world_of (o : Outcome) : World :=
  match o with
  | Returned w => w
  | Threw _ w => w
  end.

(** ** Field updates *)

Definition set_ws (v : option nat) (s : WebSocketService) : WebSocketService :=
  mkService v (sessionId s) (reconnectAttempts s) (maxReconnectAttempts s)
    (reconnectDelay s) (messageHandlers s) (isConnecting s).

Definition set_reconnectAttempts (v : Z) (s : WebSocketService) : WebSocketService :=
  mkService (ws s) (sessionId s) v (maxReconnectAttempts s)
    (reconnectDelay s) (messageHandlers s) (isConnecting s).

Definition set_messageHandlers (v : gmap string Handler) (s : WebSocketService)
  : WebSocketService :=
  mkService (ws s) (sessionId s) (reconnectAttempts s) (maxReconnectAttempts s)
    (reconnectDelay s) v (isConnecting s).

Definition set_isConnecting (v : bool) (s : WebSocketService) : WebSocketService :=
  mkService (ws s) (sessionId s) (reconnectAttempts s) (maxReconnectAttempts s)
    (reconnectDelay s) (messageHandlers s) v.

Definition set_now (v : Z) (e : Env) : Env :=
  mkEnv (REACT_APP_WS_URL e) v (sockets e) (promises e) (timers e) (scheduled e)
    (sent e) (console e) (invoked e) (effects e).

Definition set_sockets (v : list Socket) (e : Env) : Env :=
  mkEnv (REACT_APP_WS_URL e) (now e) v (promises e) (timers e) (scheduled e)
    (sent e) (console e) (invoked e) (effects e).

Definition set_promises (v : list Promise) (e : Env) : Env :=
  mkEnv (REACT_APP_WS_URL e) (now e) (sockets e) v (timers e) (scheduled e)
    (sent e) (console e) (invoked e) (effects e).

Definition set_timers (v : list Z) (e : Env) : Env :=
  mkEnv (REACT_APP_WS_URL e) (now e) (sockets e) (promises e) v (scheduled e)
    (sent e) (console e) (invoked e) (effects e).

Definition set_scheduled (v : list Z) (e : Env) : Env :=
  mkEnv (REACT_APP_WS_URL e) (now e) (sockets e) (promises e) (timers e) v
    (sent e) (console e) (invoked e) (effects e).

Definition set_sent (v : list (nat * JSValue)) (e : Env) : Env :=
  mkEnv (REACT_APP_WS_URL e) (now e) (sockets e) (promises e) (timers e)
    (scheduled e) v (console e) (invoked e) (effects e).

Definition set_console (v : list (ConsoleLevel * list JSValue)) (e : Env) : Env :=
  mkEnv (REACT_APP_WS_URL e) (now e) (sockets e) (promises e) (timers e)
    (scheduled e) (sent e) v (invoked e) (effects e).

Definition set_invoked (v : list (JSValue * JSValue)) (e : Env) : Env :=
  mkEnv (REACT_APP_WS_URL e) (now e) (sockets e) (promises e) (timers e)
    (scheduled e) (sent e) (console e) v (effects e).

Definition set_effects (v : list string) (e : Env) : Env :=
  mkEnv (REACT_APP_WS_URL e) (now e) (sockets e) (promises e) (timers e)
    (scheduled e) (sent e) (console e) (invoked e) v.

Definition on_svc (f : WebSocketService -> WebSocketService) (w : World) : World :=
  mkWorld (f (svc w)) (env w).

Definition on_env (f : Env -> Env) (w : World) : World :=
  mkWorld (svc w) (f (env w)).

(** ** The platform *)

Module Platform.

(** [console.log(...)] and [console.error(...)]. *)
Definition console_write (lvl : ConsoleLevel) (args : list JSValue) (w : World) : World :=
  on_env (fun e => set_console (console e ++ [(lvl, args)]) e) w.

(** [new WebSocket(url)]: a fresh object in state CONNECTING.  The URL is
    taken to be one the constructor accepts. *)
Definition new_WebSocket (u : string) (p : nat) (w : World) : World :=
  on_env (fun e => set_sockets (sockets e ++ [mkSocket u CONNECTING p false]) e) w.

Definition alter_socket (f : Socket -> Socket) (s : nat) (w : World) : World :=
  on_env (fun e => set_sockets (alter f s (sockets e)) e) w.

Definition set_readyState (r : ReadyState) (sk : Socket) : Socket :=
  mkSocket (url sk) r (settles sk) (close_fired sk).

Definition set_close_fired (sk : Socket) : Socket :=
  mkSocket (url sk) (readyState sk) (settles sk) true.

(** [socket.close()]: starts the closing handshake of a socket that is
    connecting or open, and does nothing otherwise.  The close event comes
    later, as an event of its own. *)
Definition after_close (r : ReadyState) : ReadyState :=
  match r with
  | CONNECTING | OPEN => CLOSING
  | CLOSING | CLOSED => r
  end.

Definition socket_close (s : nat) (w : World) : World :=
  alter_socket (fun sk => set_readyState (after_close (readyState sk)) sk) s w.

(** [socket.send(JSON.stringify(payload))].  The log keeps the object
    handed to [JSON.stringify]; on the wire a property whose value is
    [undefined] is left out. *)
Definition socket_send (s : nat) (payload : JSValue) (w : World) : World :=
  on_env (fun e => set_sent (sent e ++ [(s, payload)]) e) w.

(** [setTimeout(callback, delay)].  The only callback the service ever
    passes is the reconnect one, so a pending timer is its delay. *)
Definition setTimeout (delay : Z) (w : World) : World :=
  on_env (fun e => set_scheduled (scheduled e ++ [delay])
                     (set_timers (timers e ++ [delay]) e)) w.

(** [new Promise(...)], recorded in the state the executor leaves it in. *)
Definition new_Promise (st : PromiseState) (o : PromiseOrigin) (w : World) : World :=
  on_env (fun e => set_promises (promises e ++ [mkPromise st o]) e) w.

(** [resolve()] and [reject(reason)]: only a pending promise changes.  A
    rejection of the promise held by the reconnect timer reaches its
    [.catch(console.error)]. *)
Definition settle (p : nat) (st : PromiseState) (w : World) : World :=
  match promises (env w) !! p with
  | Some (mkPromise Pending o) =>
      let w1 := on_env (fun e => set_promises (<[p := mkPromise st o]> (promises e)) e) w in
      match st, o with
      | Rejected reason, ByTimer => console_write Error [reason] w1
      | _, _ => w1
      end
  | _ => w
  end.

(** Decimal digits of [n], most significant first, on exactly [width] places. *)
Fixpoint digits (width : nat) (n : Z) : string :=
  match width with
  | O => EmptyString
  | S width' =>
      digits width' (n / 10) ++ String (Ascii.ascii_of_nat (48 + Z.to_nat (n mod 10))) EmptyString
  end.

(** Year, month (1..12) and day of month (1..31) of a day number counted
    from 1970-01-01, in the proleptic Gregorian calendar. *)
Definition civil_from_days (days : Z) : Z * Z * Z :=
  let z := days + 719468 in
  let era := z / 146097 in
  let doe := z - era * 146097 in
  let yoe := (doe - doe / 1460 + doe / 36524 - doe / 146096) / 365 in
  let doy := doe - (365 * yoe + yoe / 4 - yoe / 100) in
  let mp := (5 * doy + 2) / 153 in
  let d := doy - (153 * mp + 2) / 5 + 1 in
  let m := if mp <? 10 then mp + 3 else mp - 9 in
  let y := yoe + era * 400 + (if m <=? 2 then 1 else 0) in
  (y, m, d).

(** [new Date(t).toISOString()]: [YYYY-MM-DDTHH:mm:ss.sssZ] in UTC, with a
    signed six digit year outside 0..9999. *)
Definition toISOString (t : Z) : string :=
  let '(y, m, d) := civil_from_days (t / 86400000) in
  let tod := t mod 86400000 in
  let year := if (0 <=? y) && (y <=? 9999) then digits 4 y
              else (if y <? 0 then "-" else "+") ++ digits 6 (Z.abs y) in
  year ++ "-" ++ digits 2 m ++ "-" ++ digits 2 d ++ "T"
    ++ digits 2 (tod / 3600000) ++ ":" ++ digits 2 (tod / 60000 mod 60) ++ ":"
    ++ digits 2 (tod / 1000 mod 60) ++ "." ++ digits 3 (tod mod 1000) ++ "Z".

End Platform.

Import Platform.

(** ** The service *)

(** [new WebSocketService(sessionId)] with its field initialisers. *)
Definition new_WebSocketService (sid : string) : WebSocketService :=
  {| ws := None;
     sessionId := sid;
     reconnectAttempts := 0;
     maxReconnectAttempts := 5;
     reconnectDelay := 1000;
     messageHandlers := ∅;
     isConnecting := false |}.

(** A browser in which nothing has happened yet. *)
Definition fresh_env (ws_url : option string) (t : Z) : Env :=
  mkEnv ws_url t [] [] [] [] [] [] [] [].

Definition boot (sid : string) (ws_url : option string) (t : Z) : World :=
  mkWorld (new_WebSocketService sid) (fresh_env ws_url t).

(** The socket behind [this.ws], when there is one. *)
Definition current_socket (w : World) : option Socket :=
  s ← ws (svc w); sockets (env w) !! s.

(** [this.ws && this.ws.readyState === WebSocket.OPEN] *)
Definition ws_is_open (w : World) : bool :=
  match current_socket w with
  | Some sk => ReadyState_eqb (readyState sk) OPEN
  | None => false
  end.

(** [process.env.REACT_APP_WS_URL || 'ws://localhost:12000'] *)
Definition wsUrl (e : Env) : string :=
  match REACT_APP_WS_URL e with
  | Some u => if String.eqb u EmptyString then "ws://localhost:12000" else u
  | None => "ws://localhost:12000"
  end.

(** The error object a failing socket hands to [onerror]. *)
Definition error_event : JSValue := JObj [("type", JStr "error")].

(** [JSON.parse] on text that is not JSON, and [data.type] on [null]. *)
Definition SyntaxError : JSValue := JStr "SyntaxError".
Definition TypeError : JSValue := JStr "TypeError".

(** [connect()].  The executor of the promise runs at once; the four
    callbacks it installs are [onopen], [onmessage], [onclose] and [onerror]
    below.  [o] tells who holds the returned promise. *)
Definition connect (o : PromiseOrigin) (w : World) : World :=
  if isConnecting (svc w) || ws_is_open w then
    new_Promise Resolved o w
  else
    let p := length (promises (env w)) in
    let s := length (sockets (env w)) in
    let u := wsUrl (env w) ++ "/ws/" ++ sessionId (svc w) in
    let w := new_Promise Pending o w in
    let w := on_svc (set_isConnecting true) w in
    let w := console_write Log [JStr ("Connecting to WebSocket: " ++ u)] w in
    let w := new_WebSocket u p w in
    on_svc (set_ws (Some s)) w.

(** [this.ws.onopen] *)
Definition onopen (sk : Socket) (w : World) : World :=
  let w := console_write Log [JStr "WebSocket connected"] w in
  let w := on_svc (set_isConnecting false) w in
  let w := on_svc (set_reconnectAttempts 0) w in
  settle (settles sk) Resolved w.

(** [this.ws.onclose] *)
Definition onclose (code : Z) (reason : string) (w : World) : World :=
  let w := console_write Log [JStr "WebSocket closed:"; JNum code; JStr reason] w in
  let w := on_svc (set_isConnecting false) w in
  let w := on_svc (set_ws None) w in
  if reconnectAttempts (svc w) <? maxReconnectAttempts (svc w) then
    let w := on_svc (fun s => set_reconnectAttempts (reconnectAttempts s + 1) s) w in
    let w := console_write Log
               [JStr ("Reconnecting... Attempt "
                      ++ pretty (reconnectAttempts (svc w)))] w in
    setTimeout (reconnectDelay (svc w) * reconnectAttempts (svc w)) w
  else w.

(** [this.ws.onerror] *)
Definition onerror (sk : Socket) (w : World) : World :=
  let w := console_write Error [JStr "WebSocket error:"; error_event] w in
  let w := on_svc (set_isConnecting false) w in
  settle (settles sk) (Rejected error_event) w.

(** The callback of the reconnect timer: [this.connect().catch(console.error)] *)
Definition reconnect_timer (w : World) : World := connect ByTimer w.

(** [disconnect()] *)
Definition disconnect (w : World) : World :=
  let w := match ws (svc w) with
           | Some s => on_svc (set_ws None) (socket_close s w)
           | None => w
           end in
  on_svc (set_messageHandlers ∅) w.

(** [sendMessage(content, metadata?, provider?)] *)
Definition sendMessage (content : string)
    (metadata : option (list (string * JSValue))) (provider : option string)
    (w : World) : World :=
  match ws (svc w) with
  | Some s =>
      if ws_is_open w then
        let message :=
          JObj [("type", JStr "message");
                ("content", JStr content);
                ("metadata",
                 JObj (obj_set "provider" (opt_string provider)
                         (obj_spread metadata [])));
                ("timestamp", JStr (toISOString (now (env w))))] in
        socket_send s message w
      else console_write Error [JStr "WebSocket is not connected"] w
  | None => console_write Error [JStr "WebSocket is not connected"] w
  end.

(** [requestMessageHistory()] *)
Definition requestMessageHistory (w : World) : World :=
  match ws (svc w) with
  | Some s =>
      if ws_is_open w then socket_send s (JObj [("type", JStr "get_history")]) w
      else console_write Error [JStr "WebSocket is not connected"] w
  | None => console_write Error [JStr "WebSocket is not connected"] w
  end.

(** [ping()] *)
Definition ping (w : World) : World :=
  match ws (svc w) with
  | Some s =>
      if ws_is_open w then socket_send s (JObj [("type", JStr "ping")]) w else w
  | None => w
  end.

(** [onMessage(type, handler)] *)
Definition onMessage (type : string) (handler : Handler) (w : World) : World :=
  on_svc (fun s => set_messageHandlers (<[type := handler]> (messageHandlers s)) s) w.

(** [offMessage(type)] *)
Definition offMessage (type : string) (w : World) : World :=
  on_svc (fun s => set_messageHandlers (delete type (messageHandlers s)) s) w.

(** [isConnected()] *)
Definition isConnected (w : World) : bool :=
  match ws (svc w) with
  | Some _ => ws_is_open w
  | None => false
  end.

(** [getReadyState()] *)
Definition getReadyState (w : World) : option Z :=
  ReadyState_code ∘ readyState <$> current_socket w.

(** A call of a public method from outside the class. *)
Definition call (c : ApiCall) (w : World) : World :=
  match c with
  | Connect => connect ByCaller w
  | Disconnect => disconnect w
  | SendMessage content metadata provider => sendMessage content metadata provider w
  | RequestMessageHistory => requestMessageHistory w
  | Ping => ping w
  | OnMessage type handler => onMessage type handler w
  | OffMessage type => offMessage type w
  end.

(** Running the body of a subscriber callback. *)
Fixpoint run_handler (p : HandlerProg) (w : World) : Outcome :=
  match p with
  | Return => Returned w
  | Throw err => Threw err w
  | Effect note k => run_handler k (on_env (fun e => set_effects (effects e ++ [note]) e) w)
  | Call c k => run_handler k (call c w)
  | AskIsConnected k => run_handler (k (isConnected w)) w
  | AskReadyState k => run_handler (k (getReadyState w)) w
  end.

(** [data.type]: a [TypeError] on [null] and [undefined], the property of
    an object, [undefined] on anything else. *)
Definition get_type (data : JSValue) : option JSValue :=
  match data with
  | JUndefined | JNull => None
  | JObj props => Some (default JUndefined (obj_get "type" props))
  | _ => Some JUndefined
  end.

(** [this.messageHandlers.get(key)]: the keys of the map are strings, so only
    a string finds anything. *)
Definition handlers_get (key : JSValue) (w : World) : option Handler :=
  match key with
  | JStr k => messageHandlers (svc w) !! k
  | _ => None
  end.

(** [handler(data)], noted in the log of handler calls under [key]. *)
Definition invoke (key : JSValue) (handler : Handler) (data : JSValue) (w : World)
  : Outcome :=
  run_handler (handler data)
    (on_env (fun e => set_invoked (invoked e ++ [(key, data)]) e) w).

(** [handleMessage(data)] *)
Definition handleMessage (data : JSValue) (w : World) : Outcome :=
  match get_type data with
  | None => Threw TypeError w
  | Some type =>
      let specific :=
        match handlers_get type w with
        | Some handler => invoke type handler data w
        | None => Returned w
        end in
      match specific with
      | Threw err w' => Threw err w'
      | Returned w' =>
          match handlers_get (JStr "*") w' with
          | Some globalHandler => invoke (JStr "*") globalHandler data w'
          | None => Returned w'
          end
      end
  end.

(** [event.data] of a message event, by what [JSON.parse] makes of it. *)
Inductive FrameData : Type :=
| NotJson (text : string)
| Json (data : JSValue).

(** [this.ws.onmessage] *)
Definition onmessage (frame : FrameData) (w : World) : World :=
  let attempt :=
    match frame with
    | NotJson _ => Threw SyntaxError w
    | Json data => handleMessage data w
    end in
  match attempt with
  | Returned w' => w'
  | Threw error w' =>
      console_write Error [JStr "Error parsing WebSocket message:"; error] w'
  end.

(** ** The browser as a sequence of events *)

(** What can happen to the service: a call of a public method from outside,
    one of the four events of a socket it constructed, the expiry of a
    pending timer, the clock moving on. *)
Inductive Event : Type :=
| EvCall (c : ApiCall)
| EvOpen (s : nat)
| EvMessage (s : nat) (frame : FrameData)
| EvError (s : nat)
| EvClose (s : nat) (code : Z) (reason : string)
| EvTimer (i : nat)
| EvClock (t : Z).

(** The browser sets [readyState] before it runs the callback: OPEN for an
    open event, CLOSED for an error and for a close event.  An event of a
    socket that was never constructed, or of a timer that is not pending,
    has no callback to run. *)
Definition step (w : World) (ev : Event) : World :=
  match ev with
  | EvCall c => call c w
  | EvOpen s =>
      match sockets (env w) !! s with
      | Some sk => onopen sk (alter_socket (set_readyState OPEN) s w)
      | None => w
      end
  | EvMessage s frame =>
      match sockets (env w) !! s with
      | Some _ => onmessage frame w
      | None => w
      end
  | EvError s =>
      match sockets (env w) !! s with
      | Some sk => onerror sk (alter_socket (set_readyState CLOSED) s w)
      | None => w
      end
  | EvClose s code reason =>
      match sockets (env w) !! s with
      | Some _ =>
          onclose code reason
            (alter_socket (set_close_fired ∘ set_readyState CLOSED) s w)
      | None => w
      end
  | EvTimer i =>
      match timers (env w) !! i with
      | Some _ => reconnect_timer (on_env (fun e => set_timers (delete i (timers e)) e) w)
      | None => w
      end
  | EvClock t => on_env (set_now t) w
  end.

Definition run (w : World) (tr : list Event) : World := fold_left step tr w.

(** Events a browser can really deliver in world [w]: open only to a socket
    that is connecting, messages only to one that is open or closing, error
    and close only to one whose close event is still to come, and time does
    not go back. *)
Definition deliverable (w : World) (ev : Event) : bool :=
  match ev with
  | EvCall _ => true
  | EvOpen s =>
      match sockets (env w) !! s with
      | Some sk => ReadyState_eqb (readyState sk) CONNECTING && negb (close_fired sk)
      | None => false
      end
  | EvMessage s _ =>
      match sockets (env w) !! s with
      | Some sk => (ReadyState_eqb (readyState sk) OPEN
                    || ReadyState_eqb (readyState sk) CLOSING) && negb (close_fired sk)
      | None => false
      end
  | EvError s | EvClose s _ _ =>
      match sockets (env w) !! s with
      | Some sk => negb (close_fired sk)
      | None => false
      end
  | EvTimer i => bool_decide (is_Some (timers (env w) !! i))
  | EvClock t => now (env w) <=? t
  end.

Fixpoint realistic (w : World) (tr : list Event) : bool :=
  match tr with
  | [] => true
  | ev :: tr' => deliverable w ev && realistic (step w ev) tr'
  end.

(** ** Notions the properties are stated with *)

Definition is_open_event (ev : Event) : bool :=
  match ev with
  | EvOpen _ => true
  | _ => false
  end.

(** A stretch of history without a successful open. *)
Definition no_open (tr : list Event) : bool := forallb (negb ∘ is_open_event) tr.

(** The delays of [n] retries in a row that follow attempt number [a]. *)
Definition retry_delays (d a : Z) (n : nat) : list Z :=
  (fun k => d * (a + Z.of_nat k)) <$> seq 1 n.

(** What the reconnect logic works on. *)
Definition plan (w : World) : Z * Z * Z * list Z :=
  (reconnectAttempts (svc w), maxReconnectAttempts (svc w),
   reconnectDelay (svc w), scheduled (env w)).

Definition is_onMessage (ev : Event) : bool :=
  match ev with
  | EvCall (OnMessage _ _) => true
  | _ => false
  end.

(** A stretch of history in which nobody outside registers a handler. *)
Definition no_onMessage (tr : list Event) : bool := forallb (negb ∘ is_onMessage) tr.

(** The public methods that only send, or fail to send, a frame. *)
Definition only_sends (c : ApiCall) : Prop :=
  match c with
  | SendMessage _ _ _ | RequestMessageHistory | Ping => True
  | Connect | Disconnect | OnMessage _ _ | OffMessage _ => False
  end.

(** A handler body that neither connects nor disconnects nor touches the
    registrations; it may send. *)
Fixpoint passive (p : HandlerProg) : Prop :=
  match p with
  | Return | Throw _ => True
  | Effect _ k => passive k
  | Call c k => only_sends c /\ passive k
  | AskIsConnected k => forall b, passive (k b)
  | AskReadyState k => forall r, passive (k r)
  end.

(** The connection as the service and the browser hold it: the private
    fields (socket handle, flags, counter, handler map), the sockets, the
    promises and the pending timers. *)
Definition connection (w : World)
  : WebSocketService * list Socket * list Promise * list Z :=
  (svc w, sockets (env w), promises (env w), timers (env w)).

(** What subscribers have seen. *)
Definition observed (w : World) : list (JSValue * JSValue) * list string :=
  (invoked (env w), effects (env w)).

(** The tags of [WebSocketMessage] (frontend/src/types/index.ts). *)
Definition recognized (type : string) : bool :=
  existsb (String.eqb type)
    ["connection_established"; "message"; "message_received"; "typing";
     "typing_stop"; "error"; "message_history"; "pong"].

(** JavaScript truthiness, and [v.k] on a value that is not null. *)
Definition truthy (v : JSValue) : bool :=
  match v with
  | JUndefined | JNull | JBool false | JNum 0 | JStr EmptyString => false
  | _ => true
  end.

Definition get_prop (k : string) (v : JSValue) : JSValue :=
  match v with
  | JObj props => default JUndefined (obj_get k props)
  | _ => JUndefined
  end.

(** The subscriber of the chat component (components/ChatInterface.tsx). *)
Module ChatInterface.

(** [ws.onMessage('connection_established', (data) => {...})]: marks the
    chat connected, shows the welcome message when the frame brings one,
    and asks for the history. *)
Definition on_connection_established : Handler := fun data =>
  Effect "console.log('Connected to WebSocket')"
    (Effect "setIsConnected(true)"
       (if truthy (get_prop "message" data)
        then Effect "setMessages([welcomeMessage])" (Call RequestMessageHistory Return)
        else Call RequestMessageHistory Return)).

End ChatInterface.

(** ** Concrete sessions *)

Module Scenario.

(** A handler that only leaves a note, and one that throws. *)
Definition noting (note : string) : Handler := fun _ => Effect note Return.
Definition throwing : Handler := fun _ => Throw (JStr "boom").

(** The reason of a close event that brings none. *)
Definition no_reason : string := EmptyString.

(** A client for session [abc123], just constructed. *)
Definition session : World := boot "abc123" None 1700000000000.

(** Connected: [connect()], then the transport opens. *)
Definition opened : World := run session [EvCall Connect; EvOpen 0].

(** The transport dropped and the first retry is waiting for its timer. *)
Definition dropped : list Event :=
  [EvCall Connect; EvOpen 0; EvClose 0 1006 no_reason].
Definition waiting : World := run session dropped.

(** [disconnect()] on an open connection; the browser then completes the
    closing handshake, and the timer that this sets expires. *)
Definition goodbye : list Event :=
  [EvCall Connect; EvOpen 0; EvCall Disconnect].
Definition goodbye_closed : list Event := goodbye ++ [EvClose 0 1005 no_reason].
Definition goodbye_retried : list Event := goodbye_closed ++ [EvTimer 0].

(** The chat component subscribed, a wildcard subscriber next to it, and
    the transport has just opened. *)
Definition greeted : list Event :=
  [EvCall (OnMessage "connection_established" ChatInterface.on_connection_established);
   EvCall (OnMessage "*" (noting "any"));
   EvCall Connect;
   EvOpen 0].

(** Subscribers for [error] and for everything, and no connection. *)
Definition idle : World :=
  run session [EvCall (OnMessage "error" (noting "error"));
               EvCall (OnMessage "*" (noting "any"))].

(** A [message] subscriber that throws next to a wildcard subscriber. *)
Definition fragile : World :=
  run session [EvCall (OnMessage "message" throwing);
               EvCall (OnMessage "*" (noting "any"));
               EvCall Connect;
               EvOpen 0].
Definition a_message : JSValue :=
  JObj [("type", JStr "message");
        ("message", JObj [("type", JStr "assistant"); ("content", JStr "hello")])].

(** Only a wildcard subscriber; a frame with a tag nobody knows. *)
Definition listening : World :=
  run session [EvCall (OnMessage "*" (noting "any")); EvCall Connect; EvOpen 0].
Definition bogus : JSValue := JObj [("type", JStr "bogus")].

(** Disconnect and connect again at once; the close event of the first
    socket arrives afterwards, the second socket opens, the retry timer
    expires and the third socket opens too. *)
Definition hasty : list Event :=
  [EvCall Connect; EvOpen 0; EvCall Disconnect; EvCall Connect;
   EvClose 0 1005 no_reason; EvOpen 1; EvTimer 0; EvOpen 2].

(** Closes upon closes: the connection opens once and then every socket
    the client constructs is closed again before it opens. *)
Definition flaky : list Event :=
  [EvClose 0 1006 no_reason; EvTimer 0; EvClose 1 1006 no_reason; EvTimer 0;
   EvClose 2 1006 no_reason; EvTimer 0; EvClose 3 1006 no_reason; EvTimer 0;
   EvClose 4 1006 no_reason; EvTimer 0; EvClose 5 1006 no_reason].

End Scenario.

(** ** Timestamps *)

(** The ISO 8601 date and time format in UTC with four digit year,
    [YYYY-MM-DDTHH:mm:ss.sssZ]. *)
Definition iso8601 (s : string) : Prop :=
  exists Y M D h m sec ms : Z,
    0 <= Y <= 9999 /\ 1 <= M <= 12 /\ 1 <= D <= 31 /\
    0 <= h <= 23 /\ 0 <= m <= 59 /\ 0 <= sec <= 59 /\ 0 <= ms <= 999 /\
    s = (digits 4 Y ++ "-" ++ digits 2 M ++ "-" ++ digits 2 D ++ "T"
         ++ digits 2 h ++ ":" ++ digits 2 m ++ ":" ++ digits 2 sec ++ "."
         ++ digits 3 ms ++ "Z")%string.

(** The instants from 0000-01-01T00:00:00.000Z to 9999-12-31T23:59:59.999Z. *)
Definition four_digit_year (t : Z) : Prop :=
  -62167219200000 <= t <= 253402300799999.

Module Sample.

(** What happened to the fragile client of the scenarios later on: it was
    disconnected, connected again, and a message arrived on the new socket. *)
Definition aftermath : list Event :=
  [EvClose 0 1005 Scenario.no_reason; EvTimer 0; EvOpen 1;
   EvMessage 1 (Json Scenario.a_message)].

(** The fragile client at the moment its [message] subscriber throws. *)
Definition at_throw : World :=
  on_env (fun e => set_invoked (invoked e ++ [(JStr "message", Scenario.a_message)]) e)
    Scenario.fragile.

(** The chat subscriber alone, on an open connection. *)
Definition chatting : World :=
  run Scenario.session
    [EvCall (OnMessage "connection_established" ChatInterface.on_connection_established);
     EvCall Connect; EvOpen 0].
Definition greeting : JSValue :=
  JObj [("type", JStr "connection_established"); ("session_id", JStr "abc123")].

Definition some_metadata : option (list (string * JSValue)) :=
  Some [("source", JStr "chat"); ("provider", JStr "stale")].

End Sample.

(** ** More notions for the service *)

(** Events of the transport, the timers and the clock: everything that is
    not a call from outside and not an inbound frame. *)
Definition transport_event (ev : Event) : bool :=
  match ev with
  | EvOpen _ | EvError _ | EvClose _ _ _ | EvTimer _ | EvClock _ => true
  | EvCall _ | EvMessage _ _ => false
  end.

(** The three frames the client has: [message], [get_history], [ping]. *)
Definition client_frame (payload : JSValue) : bool :=
  match get_prop "type" payload with
  | JStr t => String.eqb t "message" || String.eqb t "get_history" || String.eqb t "ping"
  | _ => false
  end.

(** The address of the channel of session [sid]. *)
Definition channel_url (ws_url : option string) (sid : string) : string :=
  (match ws_url with
   | Some u => if String.eqb u EmptyString then "ws://localhost:12000" else u
   | None => "ws://localhost:12000"
   end ++ "/ws/" ++ sid)%string.

(** What holds of a client of session [sid] all its life: the constants of
    its constructor stay; [this.ws] names a socket it constructed; every
    socket goes to the address of the session and settles a promise that
    exists; every frame sent is one of the three client frames and went to a
    socket it constructed. *)
Definition sound (ws_url : option string) (sid : string) (w : World) : Prop :=
  sessionId (svc w) = sid
  /\ REACT_APP_WS_URL (env w) = ws_url
  /\ maxReconnectAttempts (svc w) = 5
  /\ reconnectDelay (svc w) = 1000
  /\ (forall s, ws (svc w) = Some s -> (s < length (sockets (env w)))%nat)
  /\ Forall (fun sk => url sk = channel_url ws_url sid
                       /\ (settles sk < length (promises (env w)))%nat)
       (sockets (env w))
  /\ Forall (fun f => (f.1 < length (sockets (env w)))%nat /\ client_frame f.2 = true)
       (sent (env w)).

Module Later.

(** The flaky connection of the scenarios after its last close: the budget
    is spent.  The caller then connects by hand and that socket closes too. *)
Definition exhausted : World := run Scenario.opened Scenario.flaky.
Definition by_hand : list Event := [EvCall Connect; EvClose 6 1006 Scenario.no_reason].

(** An open connection with two retries behind it and a subscriber, and a
    stretch of transport events: the connection drops, the retry timer
    expires, the new socket fails and closes. *)
Definition subscribed : World :=
  run Scenario.session
    [EvCall (OnMessage "message" (Scenario.noting "message")); EvCall Connect; EvOpen 0].
Definition outage : list Event :=
  [EvClose 0 1006 Scenario.no_reason; EvTimer 0; EvError 1;
   EvClose 1 1006 Scenario.no_reason; EvClock 1700000005000].

(** A client that has just called [connect()]. *)
Definition connecting : World := run Scenario.session [EvCall Connect].

End Later.

(** ** The chat component *)

(** [a || b] *)
Definition js_or (a b : JSValue) : JSValue := if truthy a then a else b.

(** [String.prototype.trim] on the UTF-8 bytes of a string.  The white space
    and line terminator characters of ECMAScript are TAB, LF, VT, FF, CR and
    SP (one byte each), U+00A0 (two bytes), and U+1680, U+2000 to U+200A,
    U+2028, U+2029, U+202F, U+205F, U+3000 and U+FEFF (three bytes each). *)
Module Trim.

Definition code (a : Ascii.ascii) : nat := Ascii.nat_of_ascii a.

Definition whitespace1 (a : nat) : bool :=
  ((a =? 9) || (a =? 10) || (a =? 11) || (a =? 12) || (a =? 13) || (a =? 32))%nat.

Definition whitespace2 (a b : nat) : bool := ((a =? 194) && (b =? 160))%nat.

Definition whitespace3 (a b c : nat) : bool :=
  (((a =? 225) && (b =? 154) && (c =? 128))
   || ((a =? 226) && (b =? 128) && (128 <=? c) && (c <=? 138))
   || ((a =? 226) && (b =? 128) && ((c =? 168) || (c =? 169) || (c =? 175)))
   || ((a =? 226) && (b =? 129) && (c =? 159))
   || ((a =? 227) && (b =? 128) && (c =? 128))
   || ((a =? 239) && (b =? 187) && (c =? 191)))%nat.

(** One such character taken off the front, if there is one. *)
Definition strip_lead (l : list Ascii.ascii) : option (list Ascii.ascii) :=
  match l with
  | a :: r1 =>
      if whitespace1 (code a) then Some r1
      else match r1 with
           | b :: r2 =>
               if whitespace2 (code a) (code b) then Some r2
               else match r2 with
                    | c :: r3 =>
                        if whitespace3 (code a) (code b) (code c) then Some r3 else None
                    | [] => None
                    end
           | [] => None
           end
  | [] => None
  end.

(** The same at the end, on the bytes in reverse. *)
Definition strip_trail (l : list Ascii.ascii) : option (list Ascii.ascii) :=
  match l with
  | c :: r1 =>
      if whitespace1 (code c) then Some r1
      else match r1 with
           | b :: r2 =>
               if whitespace2 (code b) (code c) then Some r2
               else match r2 with
                    | a :: r3 =>
                        if whitespace3 (code a) (code b) (code c) then Some r3 else None
                    | [] => None
                    end
           | [] => None
           end
  | [] => None
  end.

Fixpoint strip_all (strip : list Ascii.ascii -> option (list Ascii.ascii))
    (fuel : nat) (l : list Ascii.ascii) : list Ascii.ascii :=
  match fuel with
  | O => l
  | S fuel' =>
      match strip l with
      | Some rest => strip_all strip fuel' rest
      | None => l
      end
  end.

Definition trimStart (l : list Ascii.ascii) : list Ascii.ascii :=
  strip_all strip_lead (length l) l.

Definition trimEnd (l : list Ascii.ascii) : list Ascii.ascii :=
  rev (strip_all strip_trail (length l) (rev l)).

Definition trim (s : string) : string :=
  String.string_of_list_ascii (trimEnd (trimStart (String.list_ascii_of_string s))).

(** The string neither begins nor ends with such a character. *)
Definition trimmed (s : string) : Prop :=
  strip_lead (String.list_ascii_of_string s) = None
  /\ strip_trail (rev (String.list_ascii_of_string s)) = None.

End Trim.

(** The state and the callbacks of [ChatInterface]
    (components/ChatInterface.tsx). *)
Module Chat.

(** The [useState] cells.  [wsService] tells whether the service has been
    stored; the service itself is the world. *)
Record State : Type := mkState {
  messages : list JSValue;
  inputValue : string;
  isTyping : bool;
  typingAgent : JSValue;
  isConnected : bool;
  wsService : bool
}.

(** The state of a component that has just been rendered for the first time. *)
Definition initial : State := mkState [] EmptyString false (JStr EmptyString) false false.

Definition setMessages (v : list JSValue) (st : State) : State :=
  mkState v (inputValue st) (isTyping st) (typingAgent st) (isConnected st) (wsService st).
Definition setInputValue (v : string) (st : State) : State :=
  mkState (messages st) v (isTyping st) (typingAgent st) (isConnected st) (wsService st).
Definition setIsTyping (v : bool) (st : State) : State :=
  mkState (messages st) (inputValue st) v (typingAgent st) (isConnected st) (wsService st).
Definition setTypingAgent (v : JSValue) (st : State) : State :=
  mkState (messages st) (inputValue st) (isTyping st) v (isConnected st) (wsService st).
Definition setIsConnected (v : bool) (st : State) : State :=
  mkState (messages st) (inputValue st) (isTyping st) (typingAgent st) v (wsService st).
Definition setWsService (v : bool) (st : State) : State :=
  mkState (messages st) (inputValue st) (isTyping st) (typingAgent st) (isConnected st) v.

(** What a callback does, in order: write to the console, call a state
    setter, call the service.  A setter is given the clock and the state it
    works on; it has no result when the value it is to store is not of the
    type of the cell (a [messages] that is not an array). *)
Inductive Step : Type :=
| Note (text : string)
| Update (setter : string) (update : Z -> State -> option State)
| Service (c : ApiCall).

(** The callback as the service sees it. *)
Fixpoint to_prog (steps : list Step) : HandlerProg :=
  match steps with
  | [] => Return
  | Note text :: rest => Effect text (to_prog rest)
  | Update setter _ :: rest => Effect setter (to_prog rest)
  | Service c :: rest => Call c (to_prog rest)
  end.

(** The callback as the component sees it. *)
Fixpoint apply (steps : list Step) (t : Z) (st : State) : option State :=
  match steps with
  | [] => Some st
  | Update _ update :: rest => st' ← update t st; apply rest t st'
  | _ :: rest => apply rest t st
  end.

(** The message shown on [connection_established]. *)
Definition welcomeMessage (data : JSValue) (t : Z) : JSValue :=
  JObj [("type", JStr "assistant");
        ("content", js_or (get_prop "message" data) (JStr "Aieditor'a hoş geldiniz!"));
        ("timestamp", JStr (toISOString t));
        ("agent_name", JStr "System")].

(** The message shown on [error]. *)
Definition errorMessage (data : JSValue) (t : Z) : JSValue :=
  JObj [("type", JStr "error");
        ("content", js_or (get_prop "error" data) (JStr "Bilinmeyen hata"));
        ("timestamp", JStr (toISOString t))].

Definition on_connection_established (data : JSValue) : list Step :=
  [Note "console.log('Connected to WebSocket')";
   Update "setIsConnected(true)" (fun _ st => Some (setIsConnected true st))]
  ++ (if truthy (get_prop "message" data)
      then [Update "setMessages([welcomeMessage])"
              (fun t st => Some (setMessages [welcomeMessage data t] st))]
      else [])
  ++ [Service RequestMessageHistory].

(** The callback of [message] and of [message_received]. *)
Definition on_message (data : JSValue) : list Step :=
  if truthy (get_prop "message" data)
  then [Update "setMessages(prev => [...prev, data.message])"
          (fun _ st => Some (setMessages (messages st ++ [get_prop "message" data]) st))]
  else [].

Definition on_message_history (data : JSValue) : list Step :=
  if truthy (get_prop "messages" data)
  then [Update "setMessages(data.messages)"
          (fun _ st => match get_prop "messages" data with
                       | JArr items => Some (setMessages items st)
                       | _ => None
                       end)]
  else [].

Definition on_typing (data : JSValue) : list Step :=
  [Update "setIsTyping(true)" (fun _ st => Some (setIsTyping true st));
   Update "setTypingAgent(data.agent || 'AI')"
     (fun _ st => Some (setTypingAgent (js_or (get_prop "agent" data) (JStr "AI")) st))].

Definition on_typing_stop (data : JSValue) : list Step :=
  [Update "setIsTyping(false)" (fun _ st => Some (setIsTyping false st));
   Update "setTypingAgent('')" (fun _ st => Some (setTypingAgent (JStr EmptyString) st))].

Definition on_error (data : JSValue) : list Step :=
  [Note "console.error('WebSocket error:', data.error)";
   Update "setMessages(prev => [...prev, errorMessage])"
     (fun t st => Some (setMessages (messages st ++ [errorMessage data t]) st))].

(** The registrations of the effect, in its order. *)
Definition subscriptions : list (string * (JSValue -> list Step)) :=
  [("connection_established", on_connection_established);
   ("message", on_message);
   ("message_received", on_message);
   ("message_history", on_message_history);
   ("typing", on_typing);
   ("typing_stop", on_typing_stop);
   ("error", on_error)].

(** The effect of the component for a session id that is not empty: it
    makes the service, registers the callbacks and connects.  Its cleanup
    disconnects. *)
Definition mount_calls : list Event :=
  ((fun r => EvCall (OnMessage r.1 (fun data => to_prog (r.2 data)))) <$> subscriptions)
  ++ [EvCall Connect].



(** What a frame of tag [tag] does to the state of the component. *)
Definition receive (tag : string) (data : JSValue) (t : Z) (st : State) : option State :=
  match list_to_map (M := gmap string (JSValue -> list Step)) subscriptions !! tag with
  | Some callback => apply (callback data) t st
  | None => Some st
  end.

(** [handleSendMessage] *)
Definition handleSendMessage (st : State) (w : World) : State * World :=
  if String.eqb (Trim.trim (inputValue st)) EmptyString
     || negb (wsService st) || negb (isConnected st)
  then (st, w)
  else (setInputValue EmptyString st,
        sendMessage (Trim.trim (inputValue st)) None None w).

(** [handleKeyPress] *)
Definition handleKeyPress (key : string) (shiftKey : bool) (st : State) (w : World)
  : State * World :=
  if String.eqb key "Enter" && negb shiftKey then handleSendMessage st w else (st, w).

(** The [onChange] of the text field. *)
Definition type_text (text : string) (st : State) : State := setInputValue text st.

End Chat.

(** The state of the component once its effect has run, and the callbacks
    as the service holds them then. *)
Definition chat_mounted : Chat.State := Chat.setWsService true Chat.initial.

Definition chat_handlers : gmap string Handler :=
  list_to_map ((fun r => (r.1, fun data => Chat.to_prog (r.2 data))) <$> Chat.subscriptions).

(** A step of a callback that leaves the connection alone. *)
Definition quiet_step (s : Chat.Step) : Prop :=
  match s with
  | Chat.Service c => only_sends c
  | _ => True
  end.


(** ** The request/response service *)

(** [ApiService] (services/api.ts): the wrappers around the [axios]
    instance [api] and its two interceptors. *)
Module Api.

Inductive Method : Type := GET | POST | DELETE.

(** [config.method?.toUpperCase()] *)
Definition method_name (m : Method) : string :=
  match m with
  | GET => "GET"
  | POST => "POST"
  | DELETE => "DELETE"
  end.

(** What is handed to [api.get], [api.post] or [api.delete]: the path below
    the base URL, the query parameters and the body. *)
Record Request : Type := mkRequest {
  method : Method;
  path : string;
  params : list (string * JSValue);
  body : option JSValue
}.

Record Response : Type := mkResponse {
  response_data : JSValue;
  response_status : Z
}.

(** What becomes of a request: the promise of [axios] is fulfilled with a
    response, or rejected with an error that has a message and, when the
    server answered at all, the response. *)
Inductive Outcome : Type :=
| Fulfilled (response : Response)
| Failed (message : JSValue) (response : option Response).

(** [ApiResponse] (types/index.ts); [None] is a property that is not there. *)
Record ApiResponse : Type := mkApiResponse {
  data : option JSValue;
  error : option JSValue;
  status : Z
}.

(** The static methods. *)
Inductive Call : Type :=
| healthCheck
| createSession (userId : option string)
| getSession (sessionId : string)
| getSessionMessages (sessionId : string) (limit : option Z)
| sendMessage (sessionId content : string) (metadata : option (list (string * JSValue)))
| deleteSession (sessionId : string)
| getAgents
| getLLMProviders
| getStats.

(** The request each method makes. *)
Definition request_of (c : Call) : Request :=
  match c with
  | healthCheck => mkRequest GET "/health" [] None
  | createSession userId =>
      mkRequest POST "/sessions" [] (Some (JObj [("user_id", opt_string userId)]))
  | getSession sessionId => mkRequest GET ("/sessions/" ++ sessionId) [] None
  | getSessionMessages sessionId limit =>
      mkRequest GET ("/sessions/" ++ sessionId ++ "/messages")
        [("limit", JNum (default 50 limit))] None
  | sendMessage sessionId content metadata =>
      mkRequest POST ("/sessions/" ++ sessionId ++ "/messages") []
        (Some (JObj [("content", JStr content);
                     ("metadata", match metadata with
                                  | Some m => JObj m
                                  | None => JUndefined
                                  end)]))
  | deleteSession sessionId => mkRequest DELETE ("/sessions/" ++ sessionId) [] None
  | getAgents => mkRequest GET "/agents" [] None
  | getLLMProviders => mkRequest GET "/llm/providers" [] None
  | getStats => mkRequest GET "/stats" [] None
  end.

(** [error.response?.status || 500] *)
Definition failure_status (response : option Response) : Z :=
  match response with
  | Some r => if response_status r =? 0 then 500 else response_status r
  | None => 500
  end.

(** The [try]/[catch] every method has around its request. *)
Definition wrap (o : Outcome) : ApiResponse :=
  match o with
  | Fulfilled r => mkApiResponse (Some (response_data r)) None (response_status r)
  | Failed message response => mkApiResponse None (Some message) (failure_status response)
  end.

(** What the interceptors write to the console: the request always, the
    failure when there is one ([error.response?.data || error.message]). *)
Definition interceptor_log (req : Request) (o : Outcome)
  : list (ConsoleLevel * list JSValue) :=
  (Log, [JStr ("API Request: " ++ method_name (method req) ++ " " ++ path req)])
  :: match o with
     | Fulfilled _ => []
     | Failed message response =>
         [(Error, [JStr "API Error:";
                   js_or (match response with
                          | Some r => response_data r
                          | None => JUndefined
                          end) message])]
     end.

(** A call of a method against a server [http]: what it returns and what
    is written to the console. *)
Definition invoke (http : Request -> Outcome) (c : Call)
  : ApiResponse * list (ConsoleLevel * list JSValue) :=
  (wrap (http (request_of c)), interceptor_log (request_of c) (http (request_of c))).

End Api.

(** ** Code blocks in messages *)

(** The parts of [renderCodeBlock] (components/MessageComponent.tsx) that
    work on strings. *)
Module Markdown.

(** [\w] *)
Definition word_char (a : Ascii.ascii) : bool :=
  let n := Ascii.nat_of_ascii a in
  (((48 <=? n) && (n <=? 57)) || ((65 <=? n) && (n <=? 90))
   || ((97 <=? n) && (n <=? 122)) || (n =? 95))%nat.

(** The longest run of word characters at the front. *)
Fixpoint word_prefix (l : list Ascii.ascii) : list Ascii.ascii :=
  match l with
  | a :: rest => if word_char a then a :: word_prefix rest else []
  | [] => []
  end.

(** What follows [p] at the front of [l], when [l] begins with [p]. *)
Fixpoint after_prefix (p l : list Ascii.ascii) : option (list Ascii.ascii) :=
  match p, l with
  | [], _ => Some l
  | a :: p', b :: l' => if Ascii.eqb a b then after_prefix p' l' else None
  | _ :: _, [] => None
  end.

(** The group of the first match of [/language-(\w+)/], or nothing. *)
Fixpoint first_language (l : list Ascii.ascii) : list Ascii.ascii :=
  match l with
  | [] => []
  | _ :: rest =>
      match after_prefix (String.list_ascii_of_string "language-") l with
      | Some tail =>
          match word_prefix tail with
          | [] => first_language rest
          | w => w
          end
      | None => first_language rest
      end
  end.

(** [match ? match[1] : ''] for [/language-(\w+)/.exec(className || '')] *)
Definition language (className : option string) : string :=
  String.string_of_list_ascii
    (first_language (String.list_ascii_of_string (default EmptyString className))).

(** [!inline && language]: whether the block is shown highlighted. *)
Definition highlighted (inline : bool) (className : option string) : bool :=
  negb inline && negb (String.eqb (language className) EmptyString).

(** [String(children).replace(/\n$/, '')] on the string of the children. *)
Definition drop_final_newline (s : string) : string :=
  match rev (String.list_ascii_of_string s) with
  | a :: before =>
      if (Ascii.nat_of_ascii a =? 10)%nat
      then String.string_of_list_ascii (rev before)
      else s
  | [] => s
  end.

End Markdown.

Module Visit.

(** A chat that has just been shown for session [abc123], and the same
    after the transport has opened. *)
Definition shown : World := run Scenario.session Chat.mount_calls.
Definition live : World := step shown (EvOpen 0).

(** The server tells two messages of the past, and then an error. *)
Definition past : JSValue :=
  JObj [("type", JStr "message_history");
        ("messages", JArr [JObj [("type", JStr "user"); ("content", JStr "hi")];
                           JObj [("type", JStr "assistant"); ("content", JStr "hello")]])].
Definition failure : JSValue := JObj [("type", JStr "error"); ("error", JStr "no credits")].

(** The user has typed a line with blanks around it into a connected chat. *)
Definition typed : Chat.State :=
  Chat.type_text "  hello there  " (Chat.setIsConnected true chat_mounted).

Definition not_found : Api.Request -> Api.Outcome :=
  fun _ => Api.Failed (JStr "Request failed with status code 404")
             (Some (Api.mkResponse (JObj [("detail", JStr "Session not found")]) 404)).

End Visit.

(** * Properties *)

Ltac unfold_platform :=
  unfold settle, new_Promise, new_WebSocket, console_write, socket_close,
    socket_send, setTimeout, alter_socket in *.

Ltac unfold_service :=
  unfold call, reconnect_timer in *;
  unfold connect, disconnect, sendMessage, requestMessageHistory, ping,
    onMessage, offMessage, onopen, onclose, onerror in *.

Ltac crush_ops :=
  unfold_service; unfold_platform; repeat case_match; try reflexivity.

(** ** The reconnect plan *)

Section ReconnectPlan.

Lemma settle_plan p st w : plan (settle p st w) = plan w.
Proof. crush_ops. Qed.

Lemma connect_plan o w : plan (connect o w) = plan w.
Proof. crush_ops. Qed.

Lemma call_plan c w : plan (call c w) = plan w.
Proof. destruct c; try apply connect_plan; crush_ops. Qed.

Lemma run_handler_plan p : forall w, plan (world_of (run_handler p w)) = plan w.
Proof.
  induction p as [| err | note k IH | c k IH | k IH | k IH]; intros w; simpl;
    try reflexivity.
  - now rewrite IH.
  - now rewrite IH, call_plan.
  - apply IH.
  - apply IH.
Qed.

Lemma handleMessage_plan data w : plan (world_of (handleMessage data w)) = plan w.
Proof.
  unfold handleMessage, invoke.
  destruct (get_type data) as [type|]; [|reflexivity].
  destruct (handlers_get type w) as [h|].
  - destruct (run_handler (h data) _) as [w1|e w1] eqn:E1.
    + apply (f_equal world_of) in E1. simpl in E1.
      assert (P1 : plan w1 = plan w) by (rewrite <- E1; now rewrite run_handler_plan).
      destruct (handlers_get (JStr "*") w1) as [g|]; [|exact P1].
      now rewrite run_handler_plan.
    + apply (f_equal world_of) in E1. simpl in E1.
      simpl. rewrite <- E1. now rewrite run_handler_plan.
  - destruct (handlers_get (JStr "*") w) as [g|]; [|reflexivity].
    now rewrite run_handler_plan.
Qed.

Lemma onmessage_plan frame w : plan (onmessage frame w) = plan w.
Proof.
  unfold onmessage. destruct frame as [text|data]; [reflexivity|].
  pose proof (handleMessage_plan data w) as P.
  destruct (handleMessage data w); exact P.
Qed.

(** The one place that schedules: a close with budget left takes the next
    attempt number and waits that many base delays. *)
Lemma onclose_plan code reason w :
  plan (onclose code reason w) =
    if reconnectAttempts (svc w) <? maxReconnectAttempts (svc w)
    then (reconnectAttempts (svc w) + 1, maxReconnectAttempts (svc w),
          reconnectDelay (svc w),
          (scheduled (env w)
             ++ [reconnectDelay (svc w) * (reconnectAttempts (svc w) + 1)])%list)
    else plan w.
Proof. unfold onclose; simpl. now destruct (_ <? _). Qed.

Lemma onopen_plan sk w :
  plan (onopen sk w) =
    (0, maxReconnectAttempts (svc w), reconnectDelay (svc w), scheduled (env w)).
Proof. unfold onopen. now rewrite settle_plan. Qed.

Lemma step_plan_other w ev :
  is_open_event ev = false ->
  (forall s code reason, ev <> EvClose s code reason) ->
  plan (step w ev) = plan w.
Proof.
  intros Hopen Hclose.
  destruct ev as [c | s | s frame | s | s code reason | i | t]; simpl;
    try discriminate.
  - apply call_plan.
  - destruct (_ !! s); [apply onmessage_plan | reflexivity].
  - destruct (_ !! s); [|reflexivity]. unfold onerror. now rewrite settle_plan.
  - now destruct (Hclose s code reason).
  - destruct (_ !! i); [|reflexivity]. unfold reconnect_timer.
    now rewrite connect_plan.
  - reflexivity.
Qed.

Lemma step_plan_no_open w ev :
  is_open_event ev = false ->
  plan (step w ev) = plan w \/
  (reconnectAttempts (svc w) < maxReconnectAttempts (svc w) /\
   plan (step w ev) =
     (reconnectAttempts (svc w) + 1, maxReconnectAttempts (svc w),
      reconnectDelay (svc w),
      (scheduled (env w)
         ++ [reconnectDelay (svc w) * (reconnectAttempts (svc w) + 1)])%list)).
Proof.
  intros Hopen.
  destruct ev as [c | s | s frame | s | s code reason | i | t];
    try (left; apply step_plan_other; [exact Hopen | discriminate]).
  simpl. destruct (_ !! s); [|now left].
  rewrite onclose_plan.
  change (reconnectAttempts (svc (alter_socket _ s w))) with (reconnectAttempts (svc w)).
  change (maxReconnectAttempts (svc (alter_socket _ s w)))
    with (maxReconnectAttempts (svc w)).
  destruct (Z.ltb_spec (reconnectAttempts (svc w)) (maxReconnectAttempts (svc w)));
    [right | left]; auto.
Qed.

Lemma retry_delays_S d a n :
  retry_delays d a (S n) = d * (a + 1) :: retry_delays d (a + 1) n.
Proof.
  unfold retry_delays. simpl. f_equal.
  rewrite <- fmap_S_seq, <- list_fmap_compose.
  apply list_fmap_ext. intros _ k _. simpl. f_equal. lia.
Qed.

Lemma length_retry_delays d a n : length (retry_delays d a n) = n.
Proof. unfold retry_delays. now rewrite length_fmap, length_seq. Qed.

(** Without an open in between, the timers set are those of consecutive
    attempt numbers, and the counter stays within the budget. *)
Lemma run_no_open tr : forall w,
  no_open tr = true ->
  exists n : nat,
    plan (run w tr) =
      (reconnectAttempts (svc w) + Z.of_nat n, maxReconnectAttempts (svc w),
       reconnectDelay (svc w),
       (scheduled (env w)
          ++ retry_delays (reconnectDelay (svc w)) (reconnectAttempts (svc w)) n)%list)
    /\ (n <> O -> reconnectAttempts (svc w) + Z.of_nat n <= maxReconnectAttempts (svc w)).
Proof.
  induction tr as [|ev tr IH]; intros w Hno.
  - exists O. split; [|congruence].
    unfold plan, retry_delays. simpl. now rewrite Z.add_0_r, app_nil_r.
  - simpl in Hno. apply andb_true_iff in Hno as [Hev Htr].
    apply negb_true_iff in Hev.
    destruct (IH (step w ev) Htr) as (n & Hplan & Hbound).
    change (run w (ev :: tr)) with (run (step w ev) tr).
    destruct (step_plan_no_open w ev Hev) as [Hsame | [Hlt Hinc]].
    + injection Hsame as Ha Hm Hd Hs.
      rewrite Ha, Hm in Hbound.
      exists n. rewrite Hplan, Ha, Hm, Hd, Hs. split; [reflexivity | exact Hbound].
    + injection Hinc as Ha Hm Hd Hs.
      exists (S n). rewrite Hplan, Ha, Hm, Hd, Hs. split.
      * rewrite retry_delays_S, <- app_assoc. simpl.
        replace (reconnectAttempts (svc w) + 1 + Z.of_nat n)
          with (reconnectAttempts (svc w) + Z.of_nat (S n)) by lia.
        reflexivity.
      * intros _. destruct n as [|n]; [lia|].
        rewrite Ha, Hm in Hbound. specialize (Hbound ltac:(congruence)). lia.
Qed.

(** The counter never leaves [0..max], whatever happens. *)
Lemma step_range w ev :
  0 <= reconnectAttempts (svc w) <= maxReconnectAttempts (svc w) ->
  0 <= reconnectAttempts (svc (step w ev)) <= maxReconnectAttempts (svc (step w ev))
  /\ maxReconnectAttempts (svc (step w ev)) = maxReconnectAttempts (svc w)
  /\ reconnectDelay (svc (step w ev)) = reconnectDelay (svc w).
Proof.
  intros Hr.
  destruct (is_open_event ev) eqn:Hopen.
  - destruct ev as [| s | | | | |]; try discriminate. simpl.
    destruct (_ !! s) as [sk|]; [|lia].
    pose proof (onopen_plan sk (alter_socket (set_readyState OPEN) s w)) as P.
    injection P as Ha Hm Hd _. rewrite Ha, Hm, Hd. simpl. lia.
  - destruct (step_plan_no_open w ev Hopen) as [P | [Hlt P]];
      injection P as Ha Hm Hd _; rewrite Ha, Hm, Hd; lia.
Qed.

Lemma run_range tr : forall w,
  0 <= reconnectAttempts (svc w) <= maxReconnectAttempts (svc w) ->
  0 <= reconnectAttempts (svc (run w tr)) <= maxReconnectAttempts (svc w)
  /\ maxReconnectAttempts (svc (run w tr)) = maxReconnectAttempts (svc w)
  /\ reconnectDelay (svc (run w tr)) = reconnectDelay (svc w).
Proof.
  induction tr as [|ev tr IH]; intros w Hr; [simpl; lia|].
  change (run w (ev :: tr)) with (run (step w ev) tr).
  destruct (step_range w ev Hr) as (Hr1 & Hm1 & Hd1).
  destruct (IH _ Hr1) as (Hr2 & Hm2 & Hd2).
  rewrite Hm2, Hd2, Hm1, Hd1. rewrite Hm1 in Hr2. auto.
Qed.

End ReconnectPlan.

(** C1.  Take the client at any point of its life ([before] is whatever
    happened since construction) and let any events follow that contain no
    successful open, transport closes in particular.  The reconnect timers set
    during that stretch are those of consecutive attempt numbers, each of
    1000 ms times its attempt number; the counter, which is never negative,
    does not pass 5, so no more than 5 timers are set; and a transport open
    that follows puts the counter back to 0. *)
Theorem reconnect_attempts_bounded sid ws_url t (before closes : list Event) :
  no_open closes = true ->
  exists n : nat,
    scheduled (env (run (run (boot sid ws_url t) before) closes)) =
      (scheduled (env (run (boot sid ws_url t) before))
       ++ retry_delays 1000
            (reconnectAttempts (svc (run (boot sid ws_url t) before))) n)%list
    /\ reconnectAttempts (svc (run (run (boot sid ws_url t) before) closes)) =
         reconnectAttempts (svc (run (boot sid ws_url t) before)) + Z.of_nat n
    /\ 0 <= reconnectAttempts (svc (run (boot sid ws_url t) before))
    /\ reconnectAttempts (svc (run (run (boot sid ws_url t) before) closes)) <= 5
    /\ (n <= 5)%nat
    /\ (forall s sk,
          sockets (env (run (run (boot sid ws_url t) before) closes)) !! s = Some sk ->
          reconnectAttempts
            (svc (step (run (run (boot sid ws_url t) before) closes) (EvOpen s))) = 0).
Proof.
  intros Hno.
  set (w := run (boot sid ws_url t) before).
  destruct (run_range before (boot sid ws_url t)) as (Hr & Hm & Hd); [simpl; lia|].
  fold w in Hr, Hm, Hd. simpl in Hr, Hm, Hd.
  destruct (run_no_open closes w Hno) as (n & Hplan & Hbound).
  injection Hplan as Ha _ _ Hs.
  rewrite Hm in Hbound. rewrite Hd in Hs.
  assert (Hn : (n <= 5)%nat) by (destruct n; [lia | specialize (Hbound ltac:(congruence)); lia]).
  assert (Hle : reconnectAttempts (svc (run w closes)) <= 5).
  { rewrite Ha. destruct n; [lia | specialize (Hbound ltac:(congruence)); lia]. }
  exists n. split; [exact Hs|]. split; [exact Ha|]. split; [lia|].
  split; [exact Hle|]. split; [exact Hn|].
  intros s sk Hsk. simpl. rewrite Hsk.
  pose proof (onopen_plan sk (alter_socket (set_readyState OPEN) s (run w closes))) as P.
    now injection P as P _.
Qed.

(** ** Who can run a handler *)

Section Dispatch.

(** Public methods never call a handler. *)
Lemma call_observed c w : observed (call c w) = observed w.
Proof. destruct c; crush_ops. Qed.

Lemma connect_observed o w : observed (connect o w) = observed w.
Proof. crush_ops. Qed.

Lemma settle_observed p st w : observed (settle p st w) = observed w.
Proof. crush_ops. Qed.

Lemma call_invoked c w : invoked (env (call c w)) = invoked (env w).
Proof. exact (f_equal fst (call_observed c w)). Qed.

(** So a running handler adds nothing to the log of handler calls. *)
Lemma run_handler_invoked p : forall w,
  invoked (env (world_of (run_handler p w))) = invoked (env w).
Proof.
  induction p as [| err | note k IH | c k IH | k IH | k IH]; intros w; simpl;
    try reflexivity.
  - now rewrite IH.
  - now rewrite IH, call_invoked.
  - apply IH.
  - apply IH.
Qed.

(** A passive handler leaves the connection alone. *)
Lemma run_handler_passive p : forall w,
  passive p -> connection (world_of (run_handler p w)) = connection w.
Proof.
  induction p as [| err | note k IH | c k IH | k IH | k IH]; intros w Hp; simpl in *;
    try reflexivity.
  - now rewrite IH.
  - destruct Hp as [Hc Hk]. rewrite IH by exact Hk.
    destruct c; try contradiction; crush_ops.
  - now apply IH.
  - now apply IH.
Qed.

(** With no handler registered, a frame reaches nobody. *)
Lemma handleMessage_no_handlers data w :
  messageHandlers (svc w) = ∅ ->
  world_of (handleMessage data w) = w.
Proof.
  intros Hempty. unfold handleMessage.
  destruct (get_type data) as [type|]; [|reflexivity].
  assert (Hnone : forall key, handlers_get key w = None).
  { intros key. unfold handlers_get. rewrite Hempty. now destruct key. }
  now rewrite !Hnone.
Qed.

Lemma onmessage_no_handlers frame w :
  messageHandlers (svc w) = ∅ ->
  messageHandlers (svc (onmessage frame w)) = ∅
  /\ observed (onmessage frame w) = observed w.
Proof.
  intros Hempty. unfold onmessage.
  destruct frame as [text|data]; [now split|].
  pose proof (handleMessage_no_handlers data w Hempty) as Hw.
  destruct (handleMessage data w); simpl in Hw; subst; now split.
Qed.

Lemma step_no_handlers w ev :
  is_onMessage ev = false ->
  messageHandlers (svc w) = ∅ ->
  messageHandlers (svc (step w ev)) = ∅ /\ observed (step w ev) = observed w.
Proof.
  intros Hev Hempty.
  destruct ev as [c | s | s frame | s | s code reason | i | t]; simpl.
  - destruct c; try discriminate; crush_ops; simpl; auto.
    rewrite Hempty. split; [apply delete_empty | reflexivity].
  - destruct (_ !! s); [|now split]. crush_ops; (split; [exact Hempty | reflexivity]).
  - destruct (_ !! s); [|now split]. now apply onmessage_no_handlers.
  - destruct (_ !! s); [|now split]. crush_ops; (split; [exact Hempty | reflexivity]).
  - destruct (_ !! s); [|now split]. crush_ops; (split; [exact Hempty | reflexivity]).
  - destruct (_ !! i); [|now split]. crush_ops; (split; [exact Hempty | reflexivity]).
  - now split.
Qed.

Lemma run_no_handlers tr : forall w,
  no_onMessage tr = true ->
  messageHandlers (svc w) = ∅ ->
  messageHandlers (svc (run w tr)) = ∅ /\ observed (run w tr) = observed w.
Proof.
  induction tr as [|ev tr IH]; intros w Hno Hempty; [auto|].
  simpl in Hno. apply andb_true_iff in Hno as [Hev Htr].
  apply negb_true_iff in Hev.
  destruct (step_no_handlers w ev Hev Hempty) as [Hempty1 Hobs1].
  change (run w (ev :: tr)) with (run (step w ev) tr).
  destruct (IH _ Htr Hempty1) as [Hempty2 Hobs2].
  split; [exact Hempty2 | now rewrite Hobs2].
Qed.

Lemma disconnect_clears w :
  messageHandlers (svc (disconnect w)) = ∅ /\ observed (disconnect w) = observed w.
Proof. crush_ops; auto. Qed.

End Dispatch.

(** C9.  [disconnect()] leaves the handler map empty.  As long as nobody
    registers a handler again, the map stays empty through whatever follows
    (new connections and their frames included), no handler is called and
    none acts; and after a later [onMessage] the map holds that one handler
    only. *)
Theorem disconnect_forgets_handlers w (after : list Event) :
  no_onMessage after = true ->
  messageHandlers (svc (disconnect w)) = ∅
  /\ messageHandlers (svc (run (disconnect w) after)) = ∅
  /\ invoked (env (run (disconnect w) after)) = invoked (env w)
  /\ effects (env (run (disconnect w) after)) = effects (env w)
  /\ forall type handler,
       messageHandlers (svc (onMessage type handler (run (disconnect w) after)))
       = {[ type := handler ]}.
Proof.
  intros Hno.
  destruct (disconnect_clears w) as [Hempty Hobs].
  destruct (run_no_handlers after (disconnect w) Hno Hempty) as [Hempty' Hobs'].
  rewrite Hobs in Hobs'. injection Hobs' as Hinv Heff.
  repeat split; try assumption.
  intros type handler. simpl. rewrite Hempty'. apply insert_empty.
Qed.

(** ** Exceptions in handlers *)

Section Containment.

Lemma handleMessage_passive data w :
  (forall k h, messageHandlers (svc w) !! k = Some h -> passive (h data)) ->
  connection (world_of (handleMessage data w)) = connection w.
Proof.
  intros Hpassive. unfold handleMessage, invoke.
  destruct (get_type data) as [type|]; [|reflexivity].
  assert (Hget : forall key w1 h,
             svc w1 = svc w -> handlers_get key w1 = Some h -> passive (h data)).
  { intros key w1 h Hsvc. unfold handlers_get. rewrite Hsvc.
    destruct key; try discriminate. apply Hpassive. }
  assert (Hspecific : exists o, (match handlers_get type w with
                       | Some handler =>
                           run_handler (handler data)
                             (on_env (fun e => set_invoked (invoked e ++ [(type, data)]) e) w)
                       | None => Returned w
                       end) = o /\ connection (world_of o) = connection w).
  { eexists; split; [reflexivity|].
    destruct (handlers_get type w) as [h|] eqn:Hh; [|reflexivity].
    rewrite run_handler_passive; [reflexivity | now apply (Hget type w)]. }
  destruct Hspecific as (o & -> & Ho).
  destruct o as [w1|err w1]; simpl in Ho; [|exact Ho].
  destruct (handlers_get (JStr "*") w1) as [g|] eqn:Hg; [|exact Ho].
  rewrite run_handler_passive; [exact Ho|].
  apply (Hget (JStr "*") w1); [|exact Hg].
  now injection Ho.
Qed.

End Containment.

(** C8.  When a handler throws during the dispatch of a frame, [onmessage]
    catches it: it returns, the error goes to the console, and the private
    fields (socket handle, [isConnecting], attempt counter, handler map), the
    sockets, the promises and the timers are those at the throw: neither the
    dispatch nor the catch touches them, and no socket is closed.  When the
    handlers of the client do not themselves connect, disconnect, register or
    unregister, they are those from before the frame. *)
Theorem handler_exception_contained w data err w' :
  handleMessage data w = Threw err w' ->
  onmessage (Json data) w
    = console_write Error [JStr "Error parsing WebSocket message:"; err] w'
  /\ connection (onmessage (Json data) w) = connection w'
  /\ ((forall k h, messageHandlers (svc w) !! k = Some h -> passive (h data)) ->
      connection (onmessage (Json data) w) = connection w).
Proof.
  intros Hthrow.
  assert (Hon : onmessage (Json data) w
                = console_write Error [JStr "Error parsing WebSocket message:"; err] w')
    by (unfold onmessage; now rewrite Hthrow).
  split; [exact Hon|]. split; [now rewrite Hon|].
  intros Hpassive. rewrite Hon.
  pose proof (handleMessage_passive data w Hpassive) as Hc.
  rewrite Hthrow in Hc. exact Hc.
Qed.

(** ** Dispatch *)

(** C5, as the code has it.  The handler registered under the tag of the
    event, if any, is called first, once.  When it returns, the wildcard
    handler registered at that moment, if any, is called next, once.  When it
    throws, the exception leaves [handleMessage] at once and the wildcard
    handler is not called for this event. *)
Theorem dispatch_specific_then_wildcard w data type :
  get_type data = Some type ->
  match handlers_get type w with
  | None =>
      invoked (env (world_of (handleMessage data w))) =
        (invoked (env w)
         ++ match messageHandlers (svc w) !! "*" with
            | Some _ => [(JStr "*", data)]
            | None => []
            end)%list
  | Some handler =>
      match invoke type handler data w with
      | Threw err w1 =>
          handleMessage data w = Threw err w1
          /\ invoked (env w1) = (invoked (env w) ++ [(type, data)])%list
      | Returned w1 =>
          invoked (env (world_of (handleMessage data w))) =
            (invoked (env w) ++ [(type, data)]
             ++ match messageHandlers (svc w1) !! "*" with
                | Some _ => [(JStr "*", data)]
                | None => []
                end)%list
      end
  end.
Proof.
  intros Htype. unfold handleMessage. rewrite Htype.
  destruct (handlers_get type w) as [handler|].
  - destruct (invoke type handler data w) as [w1|err w1] eqn:Hrun.
    + assert (H1 : invoked (env w1) = (invoked (env w) ++ [(type, data)])%list).
      { apply (f_equal (fun o => invoked (env (world_of o)))) in Hrun.
        unfold invoke in Hrun. now rewrite run_handler_invoked in Hrun. }
      unfold handlers_get.
      destruct (messageHandlers (svc w1) !! "*") as [g|].
      * unfold invoke. rewrite run_handler_invoked. simpl. now rewrite H1, <- app_assoc.
      * simpl. exact H1.
    + split; [reflexivity|].
      apply (f_equal (fun o => invoked (env (world_of o)))) in Hrun.
      unfold invoke in Hrun. now rewrite run_handler_invoked in Hrun.
  - unfold handlers_get.
    destruct (messageHandlers (svc w) !! "*") as [g|].
    + unfold invoke. now rewrite run_handler_invoked.
    + simpl. now rewrite app_nil_r.
Qed.

(** C6, as the code has it.  Text that is not JSON is dropped, and so is
    JSON that is [null]: the connection and what subscribers have seen stay
    as they were and [onmessage] returns, with one more error line on the
    console.  A frame that parses is not checked against the tags of
    [WebSocketMessage]: with a tag outside them it is dispatched like any
    other, so a wildcard handler is called with it. *)
Theorem frames_dropped_or_dispatched w :
  (forall frame,
      match frame with
      | NotJson _ => True
      | Json data => get_type data = None
      end ->
      connection (onmessage frame w) = connection w
      /\ observed (onmessage frame w) = observed w
      /\ sent (env (onmessage frame w)) = sent (env w)
      /\ length (console (env (onmessage frame w))) = S (length (console (env w))))
  /\ (forall data tag g,
         get_type data = Some (JStr tag) ->
         recognized tag = false ->
         messageHandlers (svc w) !! tag = None ->
         messageHandlers (svc w) !! "*" = Some g ->
         invoked (env (onmessage (Json data) w))
         = (invoked (env w) ++ [(JStr "*", data)])%list).
Proof.
  split.
  { intros [text|data] Hbad; unfold onmessage, handleMessage; [|rewrite Hbad];
      simpl; rewrite length_app; simpl; repeat split; lia. }
  intros data tag g Htype _ Hnone Hwild.
  assert (Hlog : invoked (env (world_of (handleMessage data w)))
                 = (invoked (env w) ++ [(JStr "*", data)])%list).
  { unfold handleMessage, invoke. rewrite Htype. simpl. rewrite Hnone, Hwild.
    now rewrite run_handler_invoked. }
  unfold onmessage. destruct (handleMessage data w); exact Hlog.
Qed.

(** ** Open, send and disconnect *)

(** C3, as the code has it.  A transport open calls no handler and sends no
    frame: it marks the socket open, clears [isConnecting], resets the attempt
    counter and resolves the promise of the [connect()] that made the socket.
    [connection_established] is a frame the server sends; it is dispatched
    like any other frame, and it is the subscriber of the chat component that
    answers it with one [get_history] frame on the open socket. *)
Theorem open_is_silent_history_on_greeting w :
  (forall s sk,
      sockets (env w) !! s = Some sk ->
      observed (step w (EvOpen s)) = observed w
      /\ sent (env (step w (EvOpen s))) = sent (env w)
      /\ messageHandlers (svc (step w (EvOpen s))) = messageHandlers (svc w)
      /\ ws (svc (step w (EvOpen s))) = ws (svc w)
      /\ isConnecting (svc (step w (EvOpen s))) = false
      /\ reconnectAttempts (svc (step w (EvOpen s))) = 0
      /\ readyState <$> sockets (env (step w (EvOpen s))) !! s = Some OPEN
      /\ (forall o, promises (env w) !! settles sk = Some (mkPromise Pending o) ->
                    promises (env (step w (EvOpen s))) !! settles sk
                    = Some (mkPromise Resolved o)))
  /\ (forall data cur,
         get_type data = Some (JStr "connection_established") ->
         messageHandlers (svc w) !! "connection_established"
           = Some ChatInterface.on_connection_established ->
         messageHandlers (svc w) !! "*" = None ->
         ws (svc w) = Some cur ->
         ws_is_open w = true ->
         invoked (env (onmessage (Json data) w))
           = (invoked (env w) ++ [(JStr "connection_established", data)])%list
         /\ sent (env (onmessage (Json data) w))
           = (sent (env w) ++ [(cur, JObj [("type", JStr "get_history")])])%list).
Proof.
  split.
  - intros s sk Hsk. simpl. rewrite Hsk.
    assert (Hrs : readyState <$> alter (set_readyState OPEN) s (sockets (env w)) !! s
                  = Some OPEN)
      by (rewrite list_lookup_alter_eq, Hsk; reflexivity).
    assert (Hres : forall o,
               promises (env w) !! settles sk = Some (mkPromise Pending o) ->
               <[settles sk := mkPromise Resolved o]> (promises (env w)) !! settles sk
               = Some (mkPromise Resolved o)).
    { intros o Ho. apply list_lookup_insert_eq. now apply lookup_lt_Some in Ho. }
    crush_ops; simpl in *; repeat split; try reflexivity; try exact Hrs;
      intros o' Ho'; simplify_eq; auto.
  - intros data cur Htype Hchat Hwild Hcur Hopen.
    unfold onmessage, handleMessage. rewrite Htype. simpl. rewrite Hchat.
    unfold invoke, ChatInterface.on_connection_established.
    assert (Hreq : forall w1,
               ws (svc w1) = ws (svc w) -> sockets (env w1) = sockets (env w) ->
               requestMessageHistory w1
               = socket_send cur (JObj [("type", JStr "get_history")]) w1).
    { intros w1 Hws Hsock. unfold requestMessageHistory.
      replace (ws_is_open w1) with (ws_is_open w)
        by (unfold ws_is_open, current_socket; now rewrite Hws, Hsock).
      now rewrite Hws, Hcur, Hopen. }
    destruct (truthy (get_prop "message" data)); simpl;
      rewrite Hreq by reflexivity; simpl; rewrite Hwild; simpl; split; reflexivity.
Qed.

(** C4, as the code has it.  [sendMessage] on a client that is not connected
    sends no frame and calls no handler: it writes one error line to the
    console and returns, leaving everything else as it was. *)
Theorem send_while_not_open_logs_only w content metadata provider :
  isConnected w = false ->
  sendMessage content metadata provider w
    = console_write Error [JStr "WebSocket is not connected"] w
  /\ sent (env (sendMessage content metadata provider w)) = sent (env w)
  /\ observed (sendMessage content metadata provider w) = observed w
  /\ connection (sendMessage content metadata provider w) = connection w.
Proof.
  intros Hclosed.
  assert (Hsend : sendMessage content metadata provider w
                  = console_write Error [JStr "WebSocket is not connected"] w).
  { unfold sendMessage, isConnected in *.
    destruct (ws (svc w)); [now rewrite Hclosed | reflexivity]. }
  rewrite Hsend. now repeat split.
Qed.

(** C2, as the code has it.  [disconnect()] calls [close()] on the socket
    behind [this.ws], if there is one, and drops the handle.  It sets no
    timer, and it leaves the pending timers in place. *)
Theorem disconnect_closes_and_keeps_timers w :
  ws (svc (disconnect w)) = None
  /\ (forall s sk,
         ws (svc w) = Some s -> sockets (env w) !! s = Some sk ->
         readyState <$> sockets (env (disconnect w)) !! s
           = Some (after_close (readyState sk))
         /\ close_fired <$> sockets (env (disconnect w)) !! s = Some (close_fired sk))
  /\ (forall s, ws (svc w) <> Some s ->
                sockets (env (disconnect w)) !! s = sockets (env w) !! s)
  /\ scheduled (env (disconnect w)) = scheduled (env w)
  /\ timers (env (disconnect w)) = timers (env w).
Proof.
  unfold disconnect, socket_close, alter_socket.
  destruct (ws (svc w)) as [cur|] eqn:Hws; simpl.
  - split; [reflexivity|]. split; [|split; [|now split]].
    + intros s sk [= <-] Hsk. rewrite list_lookup_alter_eq, Hsk. now split.
    + intros s Hne. apply list_lookup_alter_ne. congruence.
  - split; [exact Hws|]. split; [discriminate|]. now repeat split.
Qed.

(** ** Outbound messages *)

Ltac divlia := Z.div_mod_to_equations; lia.

Section Timestamps.

Lemma civil_from_days_range days y m d :
  -719528 <= days <= 2932896 ->
  civil_from_days days = (y, m, d) ->
  0 <= y <= 9999 /\ 1 <= m <= 12 /\ 1 <= d <= 31.
Proof.
  unfold civil_from_days. intros Hr.
  set (z := days + 719468).
  set (era := z / 146097).
  set (doe := z - era * 146097).
  set (yoe := (doe - doe / 1460 + doe / 36524 - doe / 146096) / 365).
  set (doy := doe - (365 * yoe + yoe / 4 - yoe / 100)).
  set (mp := (5 * doy + 2) / 153).
  set (dom := doy - (153 * mp + 2) / 5 + 1).
  assert (Hera : -1 <= era <= 24) by (subst era z; divlia).
  assert (Hdoe : 0 <= doe <= 146096) by (subst doe era; divlia).
  assert (Hyoe : 0 <= yoe <= 399) by (subst yoe; clearbody doe; divlia).
  assert (Hdoy : 0 <= doy <= 365) by (subst doy yoe; clearbody doe; divlia).
  (* the first sixty days of year 0 belong to the era before *)
  assert (Hfirst : era = -1 -> yoe = 399 /\ 306 <= doy).
  { intros He. assert (146037 <= doe) by (subst doe z; lia).
    subst doy yoe; clearbody doe; divlia. }
  (* year 9999 ends with February of the last year of its era still to come *)
  assert (Hlast : era = 24 -> yoe <= 398 \/ doy <= 305).
  { intros He. assert (doe <= 146036) by (subst doe z; lia).
    subst doy yoe; clearbody doe; divlia. }
  assert (Hmp : 0 <= mp <= 11) by (subst mp; clearbody doy; divlia).
  assert (Hjan : 306 <= doy -> 10 <= mp) by (subst mp; clearbody doy; divlia).
  assert (Hmar : doy <= 305 -> mp <= 9) by (subst mp; clearbody doy; divlia).
  assert (Hdom : 1 <= dom <= 31) by (subst dom mp; clearbody doy; divlia).
  clearbody dom mp doy yoe doe era.
  intros [= <- <- <-].
  destruct (Z.ltb_spec mp 10);
    match goal with |- context [if ?c then 1 else 0] => destruct c eqn:E end;
    rewrite ?Z.leb_le, ?Z.leb_gt in E; lia.
Qed.

Lemma toISOString_iso8601 t : four_digit_year t -> iso8601 (toISOString t).
Proof.
  unfold four_digit_year, toISOString. intros Ht.
  destruct (civil_from_days (t / 86400000)) as [[y m] d] eqn:Hcivil.
  apply civil_from_days_range in Hcivil; [|divlia].
  destruct Hcivil as (Hy & Hm & Hd).
  replace ((0 <=? y) && (y <=? 9999)) with true
    by (symmetry; apply andb_true_iff; split; apply Z.leb_le; lia).
  exists y, m, d, (t mod 86400000 / 3600000), (t mod 86400000 / 60000 mod 60),
    (t mod 86400000 / 1000 mod 60), (t mod 86400000 mod 1000).
  repeat (split; [first [assumption | divlia]|]). reflexivity.
Qed.

End Timestamps.

Section Objects.

Lemma obj_get_set_eq k v o : obj_get k (obj_set k v o) = Some v.
Proof.
  induction o as [|[k' v'] o IH]; simpl.
  - now rewrite String.eqb_refl.
  - destruct (String.eqb k k') eqn:E; simpl; rewrite E; [reflexivity | exact IH].
Qed.

Lemma obj_get_set_ne k k' v o : k <> k' -> obj_get k' (obj_set k v o) = obj_get k' o.
Proof.
  intros Hne. induction o as [|[k0 v0] o IH]; simpl.
  - destruct (String.eqb_spec k' k); [congruence | reflexivity].
  - destruct (String.eqb_spec k k0) as [->|]; simpl.
    + destruct (String.eqb_spec k' k0); [congruence | reflexivity].
    + now rewrite IH.
Qed.

Lemma obj_set_fresh k v o : k ∉ o.*1 -> obj_set k v o = (o ++ [(k, v)])%list.
Proof.
  induction o as [|[k' v'] o IH]; simpl; intros Hk; [reflexivity|].
  apply not_elem_of_cons in Hk as [Hne Hk].
  destruct (String.eqb_spec k k'); [congruence|]. now rewrite IH.
Qed.

Lemma fold_obj_set_NoDup m : forall acc,
  NoDup (acc.*1 ++ m.*1) ->
  fold_left (fun acc kv => obj_set kv.1 kv.2 acc) m acc = (acc ++ m)%list.
Proof.
  induction m as [|[k v] m IH]; intros acc Hnd; simpl.
  - now rewrite app_nil_r.
  - simpl in Hnd.
    rewrite obj_set_fresh.
    + rewrite IH; [now rewrite <- app_assoc|].
      rewrite fmap_app. simpl. now rewrite <- app_assoc.
    + apply NoDup_app in Hnd as (_ & Hdisj & _).
      intros Hin. apply (Hdisj k Hin). left.
Qed.

(** Spreading an object into an empty literal copies it. *)
Lemma obj_spread_copy metadata :
  NoDup (default [] metadata).*1 ->
  obj_spread metadata [] = default [] metadata.
Proof. intros Hnd. unfold obj_spread. now rewrite fold_obj_set_NoDup. Qed.

End Objects.

(** C10.  On an open connection [sendMessage] sends one frame on the current
    socket: an object of type [message] with the content, a [metadata]
    object and a timestamp.  The metadata object is there whether or not the
    caller passed one: it is the caller's metadata with [provider] set to the
    provider argument, so it answers [provider] with that argument and every
    other key as the caller's metadata does.  The timestamp is the clock at
    the call as [toISOString] prints it, which is the ISO 8601 form
    [YYYY-MM-DDTHH:mm:ss.sssZ] for a clock in the years 0 to 9999. *)
Theorem sendMessage_frame w s content metadata provider :
  ws (svc w) = Some s ->
  ws_is_open w = true ->
  NoDup (default [] metadata).*1 ->
  exists md timestamp,
    sent (env (sendMessage content metadata provider w)) =
      (sent (env w)
       ++ [(s, JObj [("type", JStr "message");
                     ("content", JStr content);
                     ("metadata", JObj md);
                     ("timestamp", JStr timestamp)])])%list
    /\ md = obj_set "provider" (opt_string provider) (default [] metadata)
    /\ obj_get "provider" md = Some (opt_string provider)
    /\ (forall k, k <> "provider" -> obj_get k md = obj_get k (default [] metadata))
    /\ timestamp = toISOString (now (env w))
    /\ (four_digit_year (now (env w)) -> iso8601 timestamp).
Proof.
  intros Hws Hopen Hnd.
  exists (obj_set "provider" (opt_string provider) (default [] metadata)),
    (toISOString (now (env w))).
  split; [|split; [reflexivity|split; [apply obj_get_set_eq|split; [|split]]]].
  - unfold sendMessage. rewrite Hws, Hopen. simpl.
    now rewrite obj_spread_copy.
  - intros k Hk. apply obj_get_set_ne. congruence.
  - reflexivity.
  - apply toISOString_iso8601.
Qed.

(** * The statements of the specification on concrete sessions *)

(** C2 as the specification has it fails twice.  After [disconnect()] on an
    open connection nothing is scheduled yet, but the close event that the
    browser delivers for the closed socket sets the reconnect timer, and when
    it expires a second socket is constructed.  And a [disconnect()] called
    while a retry is waiting leaves the timer of that retry pending. *)
Lemma disconnect_then_retry :
  realistic Scenario.session Scenario.goodbye_retried = true
  /\ scheduled (env (run Scenario.session Scenario.goodbye)) = []
  /\ scheduled (env (run Scenario.session Scenario.goodbye_closed)) = [1000]
  /\ length (sockets (env (run Scenario.session Scenario.goodbye_closed))) = 1%nat
  /\ length (sockets (env (run Scenario.session Scenario.goodbye_retried))) = 2%nat
  /\ realistic Scenario.session Scenario.dropped = true
  /\ timers (env Scenario.waiting) = [1000]
  /\ timers (env (disconnect Scenario.waiting)) = [1000]
  /\ length (sockets (env (step (disconnect Scenario.waiting) (EvTimer 0)))) = 2%nat.
Proof. vm_compute. repeat split; reflexivity. Qed.

(** C3 as the specification has it fails: with the chat subscriber and a
    wildcard subscriber registered, the transport opens, the client is
    connected, and yet no handler was called and no frame was sent. *)
Lemma open_dispatches_nothing :
  realistic Scenario.session Scenario.greeted = true
  /\ isConnected (run Scenario.session Scenario.greeted) = true
  /\ invoked (env (run Scenario.session Scenario.greeted)) = []
  /\ effects (env (run Scenario.session Scenario.greeted)) = []
  /\ sent (env (run Scenario.session Scenario.greeted)) = [].
Proof. vm_compute. repeat split; reflexivity. Qed.

(** C4 as the specification has it fails in its last part: [send("hi")] on
    a client that is not connected reaches neither the [error] subscriber nor
    the wildcard subscriber; the failure goes to the console only. *)
Lemma send_failure_not_dispatched :
  isConnected Scenario.idle = false
  /\ is_Some (messageHandlers (svc Scenario.idle) !! "error")
  /\ is_Some (messageHandlers (svc Scenario.idle) !! "*")
  /\ invoked (env (sendMessage "hi" None None Scenario.idle)) = []
  /\ effects (env (sendMessage "hi" None None Scenario.idle)) = []
  /\ sent (env (sendMessage "hi" None None Scenario.idle)) = []
  /\ console (env (sendMessage "hi" None None Scenario.idle))
     = [(Error, [JStr "WebSocket is not connected"])].
Proof. vm_compute. repeat split; eauto. Qed.

(** C5 as the specification has it fails in its last part: when the
    [message] subscriber throws, the wildcard subscriber registered next to
    it is not called for that event. *)
Lemma throwing_handler_starves_wildcard :
  get_type Scenario.a_message = Some (JStr "message")
  /\ deliverable Scenario.fragile (EvMessage 0 (Json Scenario.a_message)) = true
  /\ is_Some (messageHandlers (svc Scenario.fragile) !! "message")
  /\ is_Some (messageHandlers (svc Scenario.fragile) !! "*")
  /\ invoked (env (world_of (handleMessage Scenario.a_message Scenario.fragile)))
     = [(JStr "message", Scenario.a_message)]
  /\ effects (env (world_of (handleMessage Scenario.a_message Scenario.fragile))) = []
  /\ invoked (env (step Scenario.fragile (EvMessage 0 (Json Scenario.a_message))))
     = [(JStr "message", Scenario.a_message)].
Proof. vm_compute. repeat split; eauto. Qed.

(** C6 as the specification has it fails for frames that parse: a frame
    whose tag is none of the recognized ones is handed to the wildcard
    subscriber. *)
Lemma unrecognized_tag_reaches_wildcard :
  recognized "bogus" = false
  /\ get_type Scenario.bogus = Some (JStr "bogus")
  /\ deliverable Scenario.listening (EvMessage 0 (Json Scenario.bogus)) = true
  /\ invoked (env (step Scenario.listening (EvMessage 0 (Json Scenario.bogus))))
     = [(JStr "*", Scenario.bogus)]
  /\ effects (env (step Scenario.listening (EvMessage 0 (Json Scenario.bogus))))
     = ["any"].
Proof. vm_compute. repeat split; reflexivity. Qed.

(** C7 on the code.  [disconnect()] followed at once by [connect()]: the
    close event of the first socket then arrives while the second is
    connecting, wipes the handle of the second and sets a retry.  The second
    socket opens without the client holding it, so the [connect()] of the
    retry constructs a third, which opens as well: two open sockets of one
    client. *)
Theorem stale_close_duplicates_connection :
  realistic Scenario.session Scenario.hasty = true
  /\ readyState <$> sockets (env (run Scenario.session (take 6 Scenario.hasty)))
     = [CLOSED; OPEN]
  /\ isConnected (run Scenario.session (take 6 Scenario.hasty)) = false
  /\ readyState <$> sockets (env (run Scenario.session (take 7 Scenario.hasty)))
     = [CLOSED; OPEN; CONNECTING]
  /\ readyState <$> sockets (env (run Scenario.session Scenario.hasty))
     = [CLOSED; OPEN; OPEN]
  /\ ws (svc (run Scenario.session Scenario.hasty)) = Some 2%nat.
Proof. vm_compute. repeat split; reflexivity. Qed.

(** The guard of [connect()] itself holds: while [isConnecting] is set or
    the socket behind [this.ws] is open, [connect()] resolves at once and
    constructs nothing. *)
Lemma connect_guard o w :
  isConnecting (svc w) = true \/ ws_is_open w = true ->
  connect o w = new_Promise Resolved o w
  /\ sockets (env (connect o w)) = sockets (env w)
  /\ svc (connect o w) = svc w
  /\ promises (env (connect o w)) = (promises (env w) ++ [mkPromise Resolved o])%list.
Proof.
  intros Hbusy.
  assert (Hguard : isConnecting (svc w) || ws_is_open w = true)
    by (apply orb_true_iff; exact Hbusy).
  unfold connect. rewrite Hguard. now repeat split.
Qed.

(** * The general statements at concrete inputs *)

(** A connection that opens once and is then closed again and again: five
    retries, one to five seconds apart, and nothing after the fifth. *)
Lemma flaky_spends_the_budget :
  realistic Scenario.opened Scenario.flaky = true
  /\ scheduled (env (run Scenario.opened Scenario.flaky)) = [1000; 2000; 3000; 4000; 5000]
  /\ timers (env (run Scenario.opened Scenario.flaky)) = []
  /\ reconnectAttempts (svc (run Scenario.opened Scenario.flaky)) = 5
  /\ length (sockets (env (run Scenario.opened Scenario.flaky))) = 6%nat.
Proof. vm_compute. repeat split; reflexivity. Qed.

Lemma reconnect_attempts_bounded_witness :
  no_open Scenario.flaky = true
  /\ exists n : nat,
       (n <= 5)%nat
       /\ scheduled (env (run (run (boot "abc123" None 1700000000000)
                                 [EvCall Connect; EvOpen 0]) Scenario.flaky))
          = (scheduled (env (run (boot "abc123" None 1700000000000)
                               [EvCall Connect; EvOpen 0]))
             ++ retry_delays 1000
                  (reconnectAttempts
                     (svc (run (boot "abc123" None 1700000000000)
                             [EvCall Connect; EvOpen 0]))) n)%list.
Proof.
  split; [reflexivity|].
  destruct (reconnect_attempts_bounded "abc123" None 1700000000000
              [EvCall Connect; EvOpen 0] Scenario.flaky eq_refl)
    as (n & Hs & _ & _ & _ & Hn & _).
  exists n. split; [exact Hn | exact Hs].
Defined.

Lemma disconnect_forgets_handlers_witness :
  no_onMessage Sample.aftermath = true
  /\ messageHandlers (svc (run (disconnect Scenario.fragile) Sample.aftermath)) = ∅
  /\ invoked (env (run (disconnect Scenario.fragile) Sample.aftermath))
     = invoked (env Scenario.fragile).
Proof.
  split; [reflexivity|].
  destruct (disconnect_forgets_handlers Scenario.fragile Sample.aftermath eq_refl)
    as (_ & Hempty & Hinv & _).
  split; [exact Hempty | exact Hinv].
Defined.

Lemma handler_exception_contained_witness :
  handleMessage Scenario.a_message Scenario.fragile = Threw (JStr "boom") Sample.at_throw
  /\ connection (onmessage (Json Scenario.a_message) Scenario.fragile)
     = connection Sample.at_throw.
Proof.
  split; [reflexivity|].
  exact (proj1 (proj2 (handler_exception_contained Scenario.fragile Scenario.a_message
                         (JStr "boom") Sample.at_throw eq_refl))).
Defined.

Lemma dispatch_specific_then_wildcard_witness :
  get_type Scenario.a_message = Some (JStr "message")
  /\ match handlers_get (JStr "message") Scenario.listening with
     | None =>
         invoked (env (world_of (handleMessage Scenario.a_message Scenario.listening)))
         = (invoked (env Scenario.listening)
            ++ match messageHandlers (svc Scenario.listening) !! "*" with
               | Some _ => [(JStr "*", Scenario.a_message)]
               | None => []
               end)%list
     | Some handler =>
         match invoke (JStr "message") handler Scenario.a_message Scenario.listening with
         | Threw err w1 =>
             handleMessage Scenario.a_message Scenario.listening = Threw err w1
             /\ invoked (env w1)
                = (invoked (env Scenario.listening)
                   ++ [(JStr "message", Scenario.a_message)])%list
         | Returned w1 =>
             invoked (env (world_of (handleMessage Scenario.a_message Scenario.listening)))
             = (invoked (env Scenario.listening)
                ++ [(JStr "message", Scenario.a_message)]
                ++ match messageHandlers (svc w1) !! "*" with
                   | Some _ => [(JStr "*", Scenario.a_message)]
                   | None => []
                   end)%list
         end
     end.
Proof.
  split; [reflexivity|].
  exact (dispatch_specific_then_wildcard Scenario.listening Scenario.a_message
           (JStr "message") eq_refl).
Defined.

Lemma frames_dropped_or_dispatched_witness :
  get_type Scenario.bogus = Some (JStr "bogus")
  /\ recognized "bogus" = false
  /\ messageHandlers (svc Scenario.listening) !! "bogus" = None
  /\ messageHandlers (svc Scenario.listening) !! "*" = Some (Scenario.noting "any")
  /\ invoked (env (onmessage (Json Scenario.bogus) Scenario.listening))
     = (invoked (env Scenario.listening) ++ [(JStr "*", Scenario.bogus)])%list.
Proof.
  repeat (split; [reflexivity|]).
  exact (proj2 (frames_dropped_or_dispatched Scenario.listening)
           Scenario.bogus "bogus" (Scenario.noting "any")
           eq_refl eq_refl eq_refl eq_refl).
Defined.

Lemma open_is_silent_history_on_greeting_witness :
  get_type Sample.greeting = Some (JStr "connection_established")
  /\ messageHandlers (svc Sample.chatting) !! "connection_established"
     = Some ChatInterface.on_connection_established
  /\ messageHandlers (svc Sample.chatting) !! "*" = None
  /\ ws (svc Sample.chatting) = Some 0%nat
  /\ ws_is_open Sample.chatting = true
  /\ sent (env (onmessage (Json Sample.greeting) Sample.chatting))
     = (sent (env Sample.chatting) ++ [(0%nat, JObj [("type", JStr "get_history")])])%list.
Proof.
  repeat (split; [reflexivity|]).
  exact (proj2 (proj2 (open_is_silent_history_on_greeting Sample.chatting)
                  Sample.greeting 0%nat eq_refl eq_refl eq_refl eq_refl eq_refl)).
Defined.

Lemma send_while_not_open_logs_only_witness :
  isConnected Scenario.idle = false
  /\ sent (env (sendMessage "hi" None None Scenario.idle)) = sent (env Scenario.idle).
Proof.
  split; [reflexivity|].
  exact (proj1 (proj2 (send_while_not_open_logs_only Scenario.idle "hi" None None eq_refl))).
Defined.

Lemma disconnect_closes_and_keeps_timers_witness :
  ws (svc Scenario.opened) = Some 0%nat
  /\ sockets (env Scenario.opened) !! 0%nat
     = Some (mkSocket "ws://localhost:12000/ws/abc123" OPEN 0 false)
  /\ readyState <$> sockets (env (disconnect Scenario.opened)) !! 0%nat = Some CLOSING.
Proof.
  repeat (split; [reflexivity|]).
  exact (proj1 (proj1 (proj2 (disconnect_closes_and_keeps_timers Scenario.opened))
                  0%nat (mkSocket "ws://localhost:12000/ws/abc123" OPEN 0 false)
                  eq_refl eq_refl)).
Defined.

Lemma sendMessage_frame_witness :
  ws (svc Scenario.opened) = Some 0%nat
  /\ ws_is_open Scenario.opened = true
  /\ NoDup (default [] Sample.some_metadata).*1
  /\ four_digit_year (now (env Scenario.opened))
  /\ exists md timestamp,
       sent (env (sendMessage "hi" Sample.some_metadata (Some "openai") Scenario.opened))
       = (sent (env Scenario.opened)
          ++ [(0%nat, JObj [("type", JStr "message");
                            ("content", JStr "hi");
                            ("metadata", JObj md);
                            ("timestamp", JStr timestamp)])])%list
       /\ obj_get "provider" md = Some (JStr "openai")
       /\ iso8601 timestamp.
Proof.
  assert (Hnd : NoDup (default [] Sample.some_metadata).*1)
    by (apply NoDup_cons; split;
        [intros Hin; apply list_elem_of_singleton in Hin; discriminate
        | apply NoDup_singleton]).
  assert (Hnow : four_digit_year (now (env Scenario.opened)))
    by (unfold four_digit_year; simpl; lia).
  split; [reflexivity|]. split; [reflexivity|]. split; [exact Hnd|]. split; [exact Hnow|].
  destruct (sendMessage_frame Scenario.opened 0%nat "hi" Sample.some_metadata
              (Some "openai") eq_refl eq_refl Hnd)
    as (md & timestamp & Hsent & _ & Hprov & _ & _ & Hiso).
  exists md, timestamp. split; [exact Hsent|]. split; [exact Hprov | exact (Hiso Hnow)].
Defined.

(** * More of the service *)

(** ** Invariants of a run *)

Section Invariant.

Variable P : World -> Prop.

Hypothesis P_call : forall c w, P w -> P (call c w).
Hypothesis P_effect : forall note w,
  P w -> P (on_env (fun e => set_effects (effects e ++ [note]) e) w).
Hypothesis P_invoked : forall entry w,
  P w -> P (on_env (fun e => set_invoked (invoked e ++ [entry]) e) w).
Hypothesis P_console : forall lvl args w, P w -> P (console_write lvl args w).
Hypothesis P_transport : forall ev w, transport_event ev = true -> P w -> P (step w ev).

Lemma run_handler_invariant p : forall w, P w -> P (world_of (run_handler p w)).
Proof.
  induction p as [| err | note k IH | c k IH | k IH | k IH]; intros w Hw; simpl; auto.
Qed.

Lemma handleMessage_invariant data w : P w -> P (world_of (handleMessage data w)).
Proof.
  intros Hw. unfold handleMessage, invoke.
  destruct (get_type data) as [type|]; [|exact Hw].
  assert (Hfirst : P (world_of match handlers_get type w with
                               | Some handler =>
                                   run_handler (handler data)
                                     (on_env (fun e => set_invoked
                                                (invoked e ++ [(type, data)]) e) w)
                               | None => Returned w
                               end)).
  { destruct (handlers_get type w); [|exact Hw]. now apply run_handler_invariant, P_invoked. }
  destruct (match handlers_get type w with Some _ => _ | None => _ end) as [w1|err w1];
    simpl in Hfirst; [|exact Hfirst].
  destruct (handlers_get (JStr "*") w1); [|exact Hfirst].
  now apply run_handler_invariant, P_invoked.
Qed.

Lemma onmessage_invariant frame w : P w -> P (onmessage frame w).
Proof.
  intros Hw. unfold onmessage. destruct frame as [text|data].
  - now apply P_console.
  - pose proof (handleMessage_invariant data w Hw) as H.
    destruct (handleMessage data w); simpl in H; [exact H | now apply P_console].
Qed.

Lemma step_invariant ev w : P w -> P (step w ev).
Proof.
  intros Hw. destruct (transport_event ev) eqn:Hev; [now apply P_transport|].
  destruct ev as [c | | s frame | | | |]; try discriminate; simpl.
  - now apply P_call.
  - destruct (_ !! s); [now apply onmessage_invariant | exact Hw].
Qed.

Lemma run_invariant tr : forall w, P w -> P (run w tr).
Proof.
  induction tr as [|ev tr IH]; intros w Hw; [exact Hw|].
  apply IH, step_invariant, Hw.
Qed.

End Invariant.

Section Soundness.

Variable ws_url : option string.
Variable sid : string.

Lemma wsUrl_channel_url w :
  sessionId (svc w) = sid -> REACT_APP_WS_URL (env w) = ws_url ->
  (wsUrl (env w) ++ "/ws/" ++ sessionId (svc w))%string = channel_url ws_url sid.
Proof. intros <- <-. reflexivity. Qed.

Ltac open_sound H :=
  destruct H as (Hsid & Hurl & Hmax & Hdelay & Hws & Hsock & Hsent).

Lemma sound_ext w w' :
  sessionId (svc w') = sessionId (svc w) ->
  maxReconnectAttempts (svc w') = maxReconnectAttempts (svc w) ->
  reconnectDelay (svc w') = reconnectDelay (svc w) ->
  ws (svc w') = ws (svc w) ->
  REACT_APP_WS_URL (env w') = REACT_APP_WS_URL (env w) ->
  sockets (env w') = sockets (env w) ->
  promises (env w') = promises (env w) ->
  sent (env w') = sent (env w) ->
  sound ws_url sid w -> sound ws_url sid w'.
Proof. unfold sound. intros -> -> -> -> -> -> -> ->. auto. Qed.

Lemma sound_grow_promises w st o :
  sound ws_url sid w -> sound ws_url sid (new_Promise st o w).
Proof.
  intros H. open_sound H. unfold sound, new_Promise. simpl.
  repeat split; try assumption.
  eapply Forall_impl; [exact Hsock|]. simpl. intros sk [? ?].
  rewrite length_app. simpl. split; [assumption | lia].
Qed.

Lemma sound_new_WebSocket w p :
  (p < length (promises (env w)))%nat ->
  sound ws_url sid w ->
  sound ws_url sid
    (on_svc (set_ws (Some (length (sockets (env w)))))
       (new_WebSocket (channel_url ws_url sid) p w)).
Proof.
  intros Hp H. open_sound H. unfold sound, new_WebSocket. simpl.
  repeat split; try assumption.
  - intros s [= <-]. rewrite length_app. simpl. lia.
  - apply Forall_app_2; [exact Hsock|]. apply Forall_singleton. now split.
  - eapply Forall_impl; [exact Hsent|]. simpl. intros f [? ?].
    rewrite length_app. simpl. split; [lia | assumption].
Qed.

Lemma sound_alter_socket w f s :
  (forall sk, url (f sk) = url sk /\ settles (f sk) = settles sk) ->
  sound ws_url sid w -> sound ws_url sid (alter_socket f s w).
Proof.
  intros Hf H. open_sound H. unfold sound, alter_socket. simpl.
  rewrite length_alter. repeat split; try assumption.
  apply Forall_alter; [exact Hsock|].
  intros sk _ [? ?]. destruct (Hf sk) as [-> ->]. now split.
Qed.

Lemma sound_settle w p st :
  sound ws_url sid w -> sound ws_url sid (settle p st w).
Proof.
  intros H. unfold settle.
  destruct (promises (env w) !! p) as [[[] o]|]; try exact H.
  assert (H' : sound ws_url sid
                 (on_env (fun e => set_promises (<[p:=mkPromise st o]> (promises e)) e) w)).
  { open_sound H. unfold sound. simpl. rewrite length_insert. now repeat split. }
  destruct st as [| |reason]; try exact H'. destruct o; [exact H'|].
  revert H'. apply sound_ext; reflexivity.
Qed.

Lemma sound_socket_send w s payload :
  ws (svc w) = Some s -> client_frame payload = true ->
  sound ws_url sid w -> sound ws_url sid (socket_send s payload w).
Proof.
  intros Hs Hf H. open_sound H. unfold sound, socket_send. simpl.
  repeat split; try assumption.
  apply Forall_app_2; [exact Hsent|]. apply Forall_singleton. simpl. auto.
Qed.

Lemma sound_connect o w : sound ws_url sid w -> sound ws_url sid (connect o w).
Proof.
  intros H. unfold connect.
  destruct (isConnecting (svc w) || ws_is_open w); [now apply sound_grow_promises|].
  rewrite wsUrl_channel_url by apply H.
  pose proof (sound_new_WebSocket
                (console_write Log [JStr ("Connecting to WebSocket: " ++ channel_url ws_url sid)]
                   (on_svc (set_isConnecting true) (new_Promise Pending o w)))
                (length (promises (env w)))) as Hnew.
  apply Hnew.
  - simpl. rewrite length_app. simpl. lia.
  - generalize (sound_grow_promises w Pending o H). apply sound_ext; reflexivity.
Qed.

Lemma sound_call c w : sound ws_url sid w -> sound ws_url sid (call c w).
Proof.
  intros H. destruct c as [| | content metadata provider | | | type handler | type]; simpl.
  - now apply sound_connect.
  - unfold disconnect. destruct (ws (svc w)) as [s|] eqn:Hs.
    + assert (H1 : sound ws_url sid (socket_close s w))
        by (apply sound_alter_socket; [now intros [] | exact H]).
      open_sound H1. unfold sound. simpl. repeat split; try assumption. discriminate.
    + revert H. apply sound_ext; reflexivity.
  - unfold sendMessage. destruct (ws (svc w)) as [s|] eqn:Hs.
    + destruct (ws_is_open w).
      * now apply sound_socket_send.
      * revert H. apply sound_ext; reflexivity.
    + revert H. apply sound_ext; reflexivity.
  - unfold requestMessageHistory. destruct (ws (svc w)) as [s|] eqn:Hs.
    + destruct (ws_is_open w).
      * now apply sound_socket_send.
      * revert H. apply sound_ext; reflexivity.
    + revert H. apply sound_ext; reflexivity.
  - unfold ping. destruct (ws (svc w)) as [s|] eqn:Hs; [|exact H].
    destruct (ws_is_open w); [now apply sound_socket_send | exact H].
  - open_sound H. unfold sound. now repeat split.
  - open_sound H. unfold sound. now repeat split.
Qed.

Lemma sound_transport ev w :
  transport_event ev = true -> sound ws_url sid w -> sound ws_url sid (step w ev).
Proof.
  intros Hev H.
  destruct ev as [| s | | s | s code reason | i | t]; try discriminate; simpl.
  - destruct (_ !! s) as [sk|]; [|exact H]. unfold onopen.
    apply sound_settle.
    assert (H1 : sound ws_url sid (alter_socket (set_readyState OPEN) s w))
      by (apply sound_alter_socket; [now intros [] | exact H]).
    revert H1. apply sound_ext; reflexivity.
  - destruct (_ !! s) as [sk|]; [|exact H]. unfold onerror.
    apply sound_settle.
    assert (H1 : sound ws_url sid (alter_socket (set_readyState CLOSED) s w))
      by (apply sound_alter_socket; [now intros [] | exact H]).
    revert H1. apply sound_ext; reflexivity.
  - destruct (_ !! s) as [sk|]; [|exact H].
    assert (H1 : sound ws_url sid
                   (alter_socket (set_close_fired ∘ set_readyState CLOSED) s w))
      by (apply sound_alter_socket; [now intros [] | exact H]).
    assert (H2 : forall w2, sound ws_url sid w2 -> sound ws_url sid (on_svc (set_ws None) w2)).
    { intros w2 H2. open_sound H2. unfold sound. simpl. repeat split; try assumption.
      discriminate. }
    unfold onclose. simpl.
    destruct (_ <? _).
    + generalize (H2 _ H1). apply sound_ext; reflexivity.
    + generalize (H2 _ H1). apply sound_ext; reflexivity.
  - destruct (_ !! i); [|exact H]. unfold reconnect_timer. apply sound_connect.
    revert H. apply sound_ext; reflexivity.
  - revert H. apply sound_ext; reflexivity.
Qed.

Lemma sound_run tr w : sound ws_url sid w -> sound ws_url sid (run w tr).
Proof.
  apply run_invariant.
  - apply sound_call.
  - intros note w0. apply sound_ext; reflexivity.
  - intros entry w0. apply sound_ext; reflexivity.
  - intros lvl args w0. apply sound_ext; reflexivity.
  - apply sound_transport.
Qed.

Lemma sound_boot t : sound ws_url sid (boot sid ws_url t).
Proof. unfold sound. simpl. repeat split; try constructor; discriminate. Qed.

End Soundness.

(** X1.  At every point of the life of a client, [this.ws] is either null or
    a socket the client constructed.  So [getReadyState()] is null exactly
    when there is no handle, and [isConnected()] holds exactly when
    [getReadyState()] is 1 (OPEN). *)
Theorem handle_names_a_socket sid ws_url t (tr : list Event) :
  (forall s, ws (svc (run (boot sid ws_url t) tr)) = Some s ->
             is_Some (sockets (env (run (boot sid ws_url t) tr)) !! s))
  /\ (getReadyState (run (boot sid ws_url t) tr) = None
      <-> ws (svc (run (boot sid ws_url t) tr)) = None)
  /\ (isConnected (run (boot sid ws_url t) tr) = true
      <-> getReadyState (run (boot sid ws_url t) tr) = Some 1).
Proof.
  pose proof (sound_run ws_url sid tr _ (sound_boot ws_url sid t)) as H.
  set (w := run (boot sid ws_url t) tr) in *.
  destruct H as (_ & _ & _ & _ & Hws & _ & _).
  assert (Hsome : forall s, ws (svc w) = Some s -> is_Some (sockets (env w) !! s))
    by (intros s Hs; apply lookup_lt_is_Some, Hws, Hs).
  split; [exact Hsome|].
  unfold getReadyState, isConnected, ws_is_open, current_socket.
  destruct (ws (svc w)) as [s|]; simpl.
  - destruct (Hsome s eq_refl) as [sk ->]. simpl.
    split; [split; discriminate|].
    destruct (readyState sk); simpl; split; congruence.
  - split; [tauto | split; discriminate].
Qed.

(** X2.  Whatever happens to a client, it never sends anything but its three
    frames: every frame it has sent is of type [message], [get_history] or
    [ping], and went to a socket it constructed. *)
Theorem only_client_frames_sent sid ws_url t (tr : list Event) :
  Forall (fun f => is_Some (sockets (env (run (boot sid ws_url t) tr)) !! f.1)
                   /\ client_frame f.2 = true)
    (sent (env (run (boot sid ws_url t) tr))).
Proof.
  pose proof (sound_run ws_url sid tr _ (sound_boot ws_url sid t)) as H.
  destruct H as (_ & _ & _ & _ & _ & _ & Hsent).
  eapply Forall_impl; [exact Hsent|].
  intros f [Hlt Hf]. split; [now apply lookup_lt_is_Some | exact Hf].
Qed.

(** X3.  All the sockets of a client go to one address, the one of its
    session: [REACT_APP_WS_URL], or [ws://localhost:12000] when that is unset
    or empty, followed by [/ws/] and the session id.  The session id, the
    budget of 5 attempts and the base delay of 1000 ms never change. *)
Theorem sockets_go_to_the_session sid ws_url t (tr : list Event) :
  Forall (fun sk => url sk = channel_url ws_url sid)
    (sockets (env (run (boot sid ws_url t) tr)))
  /\ sessionId (svc (run (boot sid ws_url t) tr)) = sid
  /\ maxReconnectAttempts (svc (run (boot sid ws_url t) tr)) = 5
  /\ reconnectDelay (svc (run (boot sid ws_url t) tr)) = 1000.
Proof.
  pose proof (sound_run ws_url sid tr _ (sound_boot ws_url sid t)) as H.
  destruct H as (Hsid & _ & Hmax & Hdelay & _ & Hsock & _).
  repeat split; try assumption.
  eapply Forall_impl; [exact Hsock|]. now intros sk [Hu _].
Qed.

(** ** Transport events, errors and the retry budget *)

Lemma transport_step_quiet ev w :
  transport_event ev = true ->
  messageHandlers (svc (step w ev)) = messageHandlers (svc w)
  /\ observed (step w ev) = observed w
  /\ sent (env (step w ev)) = sent (env w).
Proof.
  intros Hev.
  destruct ev as [| s | | s | s code reason | i | t]; try discriminate; simpl;
    try (destruct (_ !! _); [|now repeat split]); crush_ops; now repeat split.
Qed.

(** X4.  Opens, errors, closes, timer expiries and the passing of time call
    no subscriber, send no frame and leave the registrations as they are:
    subscribers are told nothing about the transport, and subscriptions
    outlive automatic reconnection. *)
Theorem transport_is_silent w (tr : list Event) :
  forallb transport_event tr = true ->
  messageHandlers (svc (run w tr)) = messageHandlers (svc w)
  /\ invoked (env (run w tr)) = invoked (env w)
  /\ effects (env (run w tr)) = effects (env w)
  /\ sent (env (run w tr)) = sent (env w).
Proof.
  revert w. induction tr as [|ev tr IH]; intros w Htr; [now repeat split|].
  simpl in Htr. apply andb_true_iff in Htr as [Hev Htr].
  change (run w (ev :: tr)) with (run (step w ev) tr).
  destruct (IH (step w ev) Htr) as (Hh & Hi & He & Hs).
  destruct (transport_step_quiet ev w Hev) as (Hh1 & Ho1 & Hs1).
  injection Ho1 as Hi1 He1.
  rewrite Hh, Hi, He, Hs. now repeat split.
Qed.

(** X5.  Once the budget is spent (the counter has reached the maximum),
    nothing sets a reconnect timer any more until a transport opens: not a
    further close, and not a [connect()] by hand whose socket closes again.
    The counter stays where it is. *)
Theorem no_retry_once_exhausted w (tr : list Event) :
  maxReconnectAttempts (svc w) <= reconnectAttempts (svc w) ->
  no_open tr = true ->
  scheduled (env (run w tr)) = scheduled (env w)
  /\ reconnectAttempts (svc (run w tr)) = reconnectAttempts (svc w).
Proof.
  intros Hspent Hno.
  destruct (run_no_open tr w Hno) as (n & Hplan & Hbound).
  injection Hplan as Ha _ _ Hs.
  destruct n as [|n]; [|specialize (Hbound ltac:(congruence)); lia].
  rewrite Ha, Hs. unfold retry_delays. simpl. rewrite app_nil_r. split; [reflexivity | lia].
Qed.

Lemma connect_constructs o w :
  isConnecting (svc w) = false -> ws_is_open w = false ->
  ws (svc (connect o w)) = Some (length (sockets (env w)))
  /\ length (sockets (env (connect o w))) = S (length (sockets (env w)))
  /\ isConnecting (svc (connect o w)) = true.
Proof.
  intros Hidle Hclosed. unfold connect. rewrite Hidle, Hclosed. simpl.
  rewrite length_app. simpl. repeat split; lia.
Qed.

(** X6.  An error event sets no timer and leaves the attempt counter and
    the handle alone: it clears [isConnecting], rejects the promise of the
    [connect()] that made the socket if that is still pending, and calls no
    subscriber.  When the socket in error is the current one, a [connect()]
    that follows constructs a new socket. *)
Theorem error_leaves_retry_to_caller w s sk :
  sockets (env w) !! s = Some sk ->
  plan (step w (EvError s)) = plan w
  /\ ws (svc (step w (EvError s))) = ws (svc w)
  /\ isConnecting (svc (step w (EvError s))) = false
  /\ observed (step w (EvError s)) = observed w
  /\ (forall o, promises (env w) !! settles sk = Some (mkPromise Pending o) ->
                promises (env (step w (EvError s))) !! settles sk
                = Some (mkPromise (Rejected error_event) o))
  /\ (ws (svc w) = Some s ->
      forall o,
        ws (svc (connect o (step w (EvError s)))) = Some (length (sockets (env w)))
        /\ length (sockets (env (connect o (step w (EvError s)))))
           = S (length (sockets (env w)))).
Proof.
  intros Hsk.
  split; [apply step_plan_other; [reflexivity | discriminate]|].
  assert (Hrej : forall o,
             promises (env w) !! settles sk = Some (mkPromise Pending o) ->
             <[settles sk := mkPromise (Rejected error_event) o]> (promises (env w))
               !! settles sk = Some (mkPromise (Rejected error_event) o)).
  { intros o Ho. apply list_lookup_insert_eq. now apply lookup_lt_Some in Ho. }
  assert (Hclosed : forall w1,
             ws (svc w1) = Some s ->
             sockets (env w1) = alter (set_readyState CLOSED) s (sockets (env w)) ->
             ws_is_open w1 = false).
  { intros w1 Hws Hsock. unfold ws_is_open, current_socket. rewrite Hws, Hsock. simpl.
    now rewrite list_lookup_alter_eq, Hsk. }
  simpl. rewrite Hsk. unfold onerror, settle. simpl.
  destruct (promises (env w) !! settles sk) as [[[] o]|] eqn:Hp; simpl.
  1: destruct o; simpl.
  all: repeat split; try reflexivity;
    try (intros o' Ho'; simplify_eq; now apply Hrej).
  all: match goal with
       | Hws : ws (svc _) = Some _ |- context [connect ?o' ?w1] =>
           destruct (connect_constructs o' w1 eq_refl (Hclosed w1 Hws eq_refl))
             as (Hhandle & Hlen & _)
       end;
    simpl in Hhandle, Hlen; rewrite length_alter in Hhandle, Hlen;
    first [exact Hhandle | exact Hlen].
Qed.

(** X7.  A second [disconnect()] changes nothing.  And [disconnect()] does
    not clear [isConnecting]: called while a connection is being made, it
    leaves the client without a handle and yet busy, so that a [connect()]
    that follows resolves at once and constructs nothing. *)
Theorem disconnect_twice_and_while_connecting w :
  disconnect (disconnect w) = disconnect w
  /\ isConnecting (svc (disconnect w)) = isConnecting (svc w)
  /\ (isConnecting (svc w) = true ->
      forall o,
        connect o (disconnect w) = new_Promise Resolved o (disconnect w)
        /\ isConnected (connect o (disconnect w)) = false
        /\ sockets (env (connect o (disconnect w))) = sockets (env (disconnect w))).
Proof.
  split; [|split].
  - unfold disconnect. destruct (ws (svc w)) as [s|] eqn:E; simpl;
      [reflexivity | now rewrite E].
  - unfold disconnect. destruct (ws (svc w)); reflexivity.
  - intros Hbusy o.
    assert (Hstill : isConnecting (svc (disconnect w)) = true)
      by (unfold disconnect; destruct (ws (svc w)); exact Hbusy).
    assert (Hnone : ws (svc (disconnect w)) = None)
      by (unfold disconnect; destruct (ws (svc w)) eqn:E; [reflexivity | exact E]).
    unfold connect. rewrite Hstill. simpl orb. cbv iota.
    split; [reflexivity|]. split; [|reflexivity].
    unfold isConnected.
    replace (ws (svc (new_Promise Resolved o (disconnect w))))
      with (ws (svc (disconnect w))) by reflexivity.
    now rewrite Hnone.
Qed.

(** X8.  [connect()] twice in a row is [connect()] once, as far as the
    connection goes: whatever the state, the second call constructs no
    socket and changes no field of the service; its promise is resolved at
    once. *)
Theorem connect_twice o1 o2 w :
  sockets (env (connect o2 (connect o1 w))) = sockets (env (connect o1 w))
  /\ svc (connect o2 (connect o1 w)) = svc (connect o1 w)
  /\ promises (env (connect o2 (connect o1 w)))
     = (promises (env (connect o1 w)) ++ [mkPromise Resolved o2])%list.
Proof.
  assert (Hbusy : isConnecting (svc (connect o1 w)) || ws_is_open (connect o1 w) = true).
  { unfold connect.
    destruct (isConnecting (svc w) || ws_is_open w) eqn:Hguard; [|reflexivity].
    exact Hguard. }
  set (w1 := connect o1 w) in *. clearbody w1.
  unfold connect. rewrite Hbusy. now repeat split.
Qed.

(** ** Registrations and the small methods *)

(** X9.  The registry keeps one handler per tag.  Registering again under a
    tag replaces the handler: the world is the one with the second
    registration alone.  A registered handler is the one found for its tag;
    after [offMessage] none is found, whether or not one was registered, and
    a frame of that tag is handed to the wildcard handler only.  Other tags
    are not touched by either method. *)
Theorem registration_round_trip w type h1 h2 :
  onMessage type h2 (onMessage type h1 w) = onMessage type h2 w
  /\ handlers_get (JStr type) (onMessage type h1 w) = Some h1
  /\ handlers_get (JStr type) (offMessage type w) = None
  /\ offMessage type (onMessage type h1 w) = offMessage type w
  /\ (forall other, other <> type ->
        handlers_get (JStr other) (onMessage type h1 w) = handlers_get (JStr other) w
        /\ handlers_get (JStr other) (offMessage type w) = handlers_get (JStr other) w)
  /\ (forall data, get_type data = Some (JStr type) -> type <> "*" ->
        invoked (env (world_of (handleMessage data (offMessage type w))))
        = (invoked (env w)
           ++ match messageHandlers (svc w) !! "*" with
              | Some _ => [(JStr "*", data)]
              | None => []
              end)%list).
Proof.
  split; [|split; [|split; [|split; [|split]]]].
  - unfold onMessage, on_svc, set_messageHandlers. simpl. now rewrite insert_insert_eq.
  - simpl. apply lookup_insert_eq.
  - simpl. apply lookup_delete_eq.
  - unfold offMessage, onMessage, on_svc, set_messageHandlers. simpl.
    now rewrite delete_insert_eq.
  - intros other Hne. simpl. split.
    + apply lookup_insert_ne. congruence.
    + apply lookup_delete_ne. congruence.
  - intros data Htype Hstar. unfold handleMessage. rewrite Htype. simpl.
    rewrite lookup_delete_eq. simpl. rewrite lookup_delete_ne by congruence.
    destruct (messageHandlers (svc w) !! "*") as [g|].
    + unfold invoke. now rewrite run_handler_invoked.
    + simpl. now rewrite app_nil_r.
Qed.

(** X10.  [ping()] and [requestMessageHistory()] on a client that is not
    connected send nothing; the history request writes an error line to the
    console, the ping does not even do that and leaves the world as it is.
    On a connected client each sends its one frame on the current socket and
    does nothing else. *)
Theorem ping_and_history_request w :
  (isConnected w = false ->
     ping w = w
     /\ requestMessageHistory w
        = console_write Error [JStr "WebSocket is not connected"] w)
  /\ (forall s, ws (svc w) = Some s -> ws_is_open w = true ->
        ping w = socket_send s (JObj [("type", JStr "ping")]) w
        /\ requestMessageHistory w
           = socket_send s (JObj [("type", JStr "get_history")]) w).
Proof.
  unfold isConnected, ping, requestMessageHistory. split.
  - intros Hclosed. destruct (ws (svc w)); [now rewrite Hclosed | now split].
  - intros s -> ->. now split.
Qed.


(** * The chat component *)

(** ** Trimming *)

Section Trimming.

Import Trim.

Lemma strip_lead_shorter l r : strip_lead l = Some r -> (length r < length l)%nat.
Proof.
  unfold strip_lead. intros H.
  repeat match type of H with
         | match ?x with _ => _ end = _ => destruct x; simplify_eq
         | (if ?c then _ else _) = _ => destruct c; simplify_eq
         end; simpl; lia.
Qed.

Lemma strip_trail_shorter l r : strip_trail l = Some r -> (length r < length l)%nat.
Proof.
  unfold strip_trail. intros H.
  repeat match type of H with
         | match ?x with _ => _ end = _ => destruct x; simplify_eq
         | (if ?c then _ else _) = _ => destruct c; simplify_eq
         end; simpl; lia.
Qed.

Lemma strip_trail_suffix l r : strip_trail l = Some r -> exists pre, l = (pre ++ r)%list.
Proof.
  unfold strip_trail. intros H.
  repeat match type of H with
         | match ?x with _ => _ end = _ => destruct x; simplify_eq
         | (if ?c then _ else _) = _ => destruct c; simplify_eq
         end.
  - now exists [a].
  - now exists [a; a0].
  - now exists [a; a0; a1].
Qed.

(** A string that begins with white space still does when it is continued. *)
Lemma strip_lead_app p q r :
  strip_lead p = Some r -> strip_lead (p ++ q) = Some (r ++ q)%list.
Proof.
  unfold strip_lead. intros H.
  destruct p as [|a [|b [|c p]]]; simpl in *; try discriminate;
    repeat match type of H with
           | (if ?c then _ else _) = _ => destruct c eqn:?; simplify_eq
           end; try reflexivity.
Qed.

Section Strip.

Variable strip : list Ascii.ascii -> option (list Ascii.ascii).
Hypothesis strip_shorter : forall l r, strip l = Some r -> (length r < length l)%nat.

Lemma strip_all_done fuel : forall l,
  (length l <= fuel)%nat -> strip (strip_all strip fuel l) = None.
Proof.
  induction fuel as [|fuel IH]; intros l Hlen; simpl.
  - destruct (strip l) as [r|] eqn:E; [|reflexivity].
    apply strip_shorter in E. lia.
  - destruct (strip l) as [r|] eqn:E; [|exact E].
    apply IH. apply strip_shorter in E. lia.
Qed.

Lemma strip_all_fixed fuel l : strip l = None -> strip_all strip fuel l = l.
Proof. intros H. destruct fuel; simpl; [reflexivity | now rewrite H]. Qed.

End Strip.

Lemma strip_all_trail_suffix fuel : forall l,
  exists pre, l = (pre ++ strip_all strip_trail fuel l)%list.
Proof.
  induction fuel as [|fuel IH]; intros l; simpl; [now exists []|].
  destruct (strip_trail l) as [r|] eqn:E; [|now exists []].
  destruct (strip_trail_suffix l r E) as [pre ->].
  destruct (IH r) as [pre' Hr].
  exists (pre ++ pre')%list. rewrite <- app_assoc. now rewrite <- Hr.
Qed.

Lemma trimStart_done l : strip_lead (trimStart l) = None.
Proof. apply strip_all_done; [apply strip_lead_shorter | reflexivity]. Qed.

Lemma trimEnd_done l : strip_trail (rev (trimEnd l)) = None.
Proof.
  unfold trimEnd. rewrite rev_involutive.
  apply strip_all_done; [apply strip_trail_shorter | now rewrite length_rev].
Qed.

Lemma trimEnd_prefix l : exists post, l = (trimEnd l ++ post)%list.
Proof.
  unfold trimEnd.
  destruct (strip_all_trail_suffix (length l) (rev l)) as [pre Hpre].
  exists (rev pre).
  rewrite <- rev_app_distr, <- Hpre. now rewrite rev_involutive.
Qed.

Lemma trimEnd_keeps_lead l : strip_lead l = None -> strip_lead (trimEnd l) = None.
Proof.
  intros H. destruct (strip_lead (trimEnd l)) as [r|] eqn:E; [|reflexivity].
  destruct (trimEnd_prefix l) as [post Hl].
  apply (strip_lead_app _ post) in E. rewrite <- Hl in E. congruence.
Qed.

(** What [trim] returns is trimmed, and [trim] leaves a trimmed string as
    it is. *)
Lemma trim_trimmed s : trimmed (trim s).
Proof.
  unfold trimmed, trim. rewrite String.list_ascii_of_string_of_list_ascii.
  split; [apply trimEnd_keeps_lead, trimStart_done | apply trimEnd_done].
Qed.

Lemma trim_of_trimmed s : trimmed s -> trim s = s.
Proof.
  intros [Hlead Htrail]. unfold trim, trimStart, trimEnd.
  rewrite (strip_all_fixed _ _ _ Hlead), (strip_all_fixed _ _ _ Htrail).
  rewrite rev_involutive. apply String.string_of_list_ascii_of_string.
Qed.

End Trimming.

(** ** The callbacks of the chat *)

Lemma to_prog_passive steps : Forall quiet_step steps -> passive (Chat.to_prog steps).
Proof.
  induction 1 as [|[text | setter update | c] steps Hs _ IH]; simpl; auto.
Qed.

Lemma chat_callbacks_quiet tag callback data :
  (tag, callback) ∈ Chat.subscriptions -> Forall quiet_step (callback data).
Proof.
  unfold Chat.subscriptions. rewrite !elem_of_cons, elem_of_nil.
  intros H. repeat (destruct H as [H|H]); try contradiction; simplify_eq;
    unfold Chat.on_connection_established, Chat.on_message, Chat.on_message_history,
      Chat.on_typing, Chat.on_typing_stop, Chat.on_error;
    repeat match goal with |- context [if ?c then _ else _] => destruct c end;
    simpl; repeat constructor.
Qed.

Lemma chat_handlers_lookup tag h :
  chat_handlers !! tag = Some h ->
  exists callback, (tag, callback) ∈ Chat.subscriptions
                   /\ h = (fun data => Chat.to_prog (callback data)).
Proof.
  unfold chat_handlers. intros H.
  apply elem_of_list_to_map_2 in H.
  apply list_elem_of_fmap in H as ([tag' callback] & Heq & Hin).
  simpl in Heq. injection Heq as -> ->. eauto.
Qed.

(** The callback of [connection_established] is the one the service was
    given. *)
Lemma on_connection_established_prog data :
  Chat.to_prog (Chat.on_connection_established data)
  = ChatInterface.on_connection_established data.
Proof.
  unfold Chat.on_connection_established, ChatInterface.on_connection_established.
  simpl. now destruct (truthy (get_prop "message" data)).
Qed.

Lemma chat_callback_run tag callback data w0 :
  (tag, callback) ∈ Chat.subscriptions ->
  exists w1,
    run_handler (Chat.to_prog (callback data)) w0 = Returned w1
    /\ (sent (env w1) = sent (env w0)
        \/ (tag = "connection_established"
            /\ exists s, ws (svc w0) = Some s /\ ws_is_open w0 = true
                         /\ sent (env w1)
                            = (sent (env w0) ++ [(s, JObj [("type", JStr "get_history")])])%list)).
Proof.
  unfold Chat.subscriptions. rewrite !elem_of_cons, elem_of_nil.
  intros H. repeat (destruct H as [H|H]); try contradiction; simplify_eq;
    unfold Chat.on_connection_established, Chat.on_message, Chat.on_message_history,
      Chat.on_typing, Chat.on_typing_stop, Chat.on_error;
    repeat match goal with |- context [if ?c then _ else _] => destruct c end;
    simpl; try (eexists; split; [reflexivity | now left]).
  all: unfold requestMessageHistory; simpl;
    change (ws_is_open (on_env _ _)) with (ws_is_open w0);
    destruct (ws (svc w0)) as [s|] eqn:Hs;
    [destruct (ws_is_open w0) eqn:Ho|];
    eexists; (split; [reflexivity|]);
    first [now left | right; split; [reflexivity|]; exists s; now repeat split].
Qed.

Lemma chat_onmessage_connection w frame :
  messageHandlers (svc w) = chat_handlers ->
  connection (onmessage frame w) = connection w.
Proof.
  intros Hmap. unfold onmessage. destruct frame as [text|data]; [reflexivity|].
  assert (Hc : connection (world_of (handleMessage data w)) = connection w).
  { apply handleMessage_passive. intros k h. rewrite Hmap. intros Hk.
    destruct (chat_handlers_lookup k h Hk) as (callback & Hin & ->).
    apply to_prog_passive. now apply (chat_callbacks_quiet k). }
  destruct (handleMessage data w); exact Hc.
Qed.

(** X12.  With the callbacks of the chat registered, an inbound frame never
    disturbs the connection: whatever the frame, the fields of the service
    (the registrations among them), the sockets, the promises and the timers
    are as before.  The only thing a frame can make the client send is the
    history request, on a [connection_established] frame while connected;
    and no frame makes a callback of the chat throw. *)
Theorem chat_callbacks_leave_connection w frame :
  messageHandlers (svc w) = chat_handlers ->
  connection (onmessage frame w) = connection w
  /\ (sent (env (onmessage frame w)) = sent (env w)
      \/ exists data s,
           frame = Json data
           /\ get_type data = Some (JStr "connection_established")
           /\ ws (svc w) = Some s /\ ws_is_open w = true
           /\ sent (env (onmessage frame w))
              = (sent (env w) ++ [(s, JObj [("type", JStr "get_history")])])%list)
  /\ (forall data type, frame = Json data -> get_type data = Some type ->
        exists w', handleMessage data w = Returned w').
Proof.
  intros Hmap.
  split; [now apply chat_onmessage_connection|].
  assert (Hrun : forall data type, get_type data = Some type ->
            exists w', handleMessage data w = Returned w'
              /\ (sent (env w') = sent (env w)
                  \/ (type = JStr "connection_established"
                      /\ exists s, ws (svc w) = Some s /\ ws_is_open w = true
                           /\ sent (env w')
                              = (sent (env w)
                                 ++ [(s, JObj [("type", JStr "get_history")])])%list))).
  { intros data type Htype. unfold handleMessage. rewrite Htype.
    assert (Hstar : forall w1, messageHandlers (svc w1) = chat_handlers ->
                               handlers_get (JStr "*") w1 = None)
      by (intros w1 H1; simpl; rewrite H1; reflexivity).
    destruct (handlers_get type w) as [h|] eqn:Hh.
    - destruct type as [| | | |tag| |]; try discriminate. simpl in Hh. rewrite Hmap in Hh.
      destruct (chat_handlers_lookup tag h Hh) as (callback & Hin & ->).
      unfold invoke.
      destruct (chat_callback_run tag callback data
                  (on_env (fun e => set_invoked (invoked e ++ [(JStr tag, data)]) e) w) Hin)
        as (w1 & Hw1 & Hsent).
      rewrite Hw1.
      assert (Hsvc : messageHandlers (svc w1) = chat_handlers).
      { pose proof (run_handler_passive (Chat.to_prog (callback data))
                      (on_env (fun e => set_invoked (invoked e ++ [(JStr tag, data)]) e) w)
                      (to_prog_passive _ (chat_callbacks_quiet tag callback data Hin))) as Hp.
        rewrite Hw1 in Hp. simpl in Hp. injection Hp as Hp _ _ _. now rewrite Hp. }
      rewrite (Hstar w1 Hsvc). exists w1. split; [reflexivity|].
      destruct Hsent as [Hsame | (-> & s & Hs & Ho & Hsent)]; [now left|].
      right. split; [reflexivity|]. now exists s.
    - rewrite (Hstar w Hmap). exists w. split; [reflexivity | now left]. }
  split.
  - unfold onmessage. destruct frame as [text|data]; [now left|].
    destruct (get_type data) as [type|] eqn:Htype.
    + destruct (Hrun data type Htype) as (w' & -> & [Hsame | (-> & s & Hs & Ho & Hsent)]);
        [now left|].
      right. exists data, s. now repeat split.
    + unfold handleMessage. rewrite Htype. now left.
  - intros data type _ Htype. destruct (Hrun data type Htype) as (w' & Hw' & _). eauto.
Qed.

(** ** The timeline *)

Lemma receive_unfold tag callback data t st :
  list_to_map (M := gmap string (JSValue -> list Chat.Step)) Chat.subscriptions !! tag
    = Some callback ->
  Chat.receive tag data t st = Chat.apply (callback data) t st.
Proof. intros H. unfold Chat.receive. now rewrite H. Qed.

(** X13.  A [message_history] frame that carries an array replaces the
    timeline by that array, whatever the timeline held: live messages that
    arrived before the history are gone after it.  A frame without
    [messages] (or with [null]) changes nothing.  An empty array counts: it
    clears the timeline. *)
Theorem history_replaces_timeline data t st :
  (forall items,
      get_prop "messages" data = JArr items ->
      Chat.receive "message_history" data t st = Some (Chat.setMessages items st)
      /\ forall live t' st',
           Chat.receive "message" live t' st = Some st' ->
           Chat.receive "message_history" data t st'
           = Chat.receive "message_history" data t st)
  /\ (truthy (get_prop "messages" data) = false ->
      Chat.receive "message_history" data t st = Some st).
Proof.
  split.
  - intros items Hitems.
    assert (Hrecv : forall st0, Chat.receive "message_history" data t st0
                                = Some (Chat.setMessages items st0)).
    { intros st0. rewrite (receive_unfold _ Chat.on_message_history) by reflexivity.
      unfold Chat.on_message_history. now rewrite Hitems. }
    split; [apply Hrecv|].
    intros live t' st' Hlive. rewrite !Hrecv.
    rewrite (receive_unfold _ Chat.on_message) in Hlive by reflexivity.
    unfold Chat.on_message in Hlive.
    destruct (truthy (get_prop "message" live)); simpl in Hlive; now simplify_eq.
  - intros Hfalsy. rewrite (receive_unfold _ Chat.on_message_history) by reflexivity.
    unfold Chat.on_message_history. now rewrite Hfalsy.
Qed.

(** X14.  [message] and [message_received] frames are treated alike: the
    message they carry is put at the end of the timeline, and a frame that
    carries none changes nothing.  Nothing else of the state is touched. *)
Theorem live_messages_append data t st :
  Chat.receive "message_received" data t st = Chat.receive "message" data t st
  /\ Chat.receive "message" data t st
     = Some (if truthy (get_prop "message" data)
             then Chat.setMessages (Chat.messages st ++ [get_prop "message" data]) st
             else st).
Proof.
  rewrite !(receive_unfold _ Chat.on_message) by reflexivity.
  unfold Chat.on_message.
  now destruct (truthy (get_prop "message" data)).
Qed.

(** X15.  An [error] frame always puts one message of type [error] at the
    end of the timeline.  Its content is the [error] of the frame, or
    [Bilinmeyen hata] when the frame has none or an empty one; its timestamp
    is the clock of the component, not of the server. *)
Theorem error_always_shown data t st :
  Chat.receive "error" data t st
  = Some (Chat.setMessages (Chat.messages st ++ [Chat.errorMessage data t]) st)
  /\ get_prop "type" (Chat.errorMessage data t) = JStr "error"
  /\ get_prop "content" (Chat.errorMessage data t)
     = (if truthy (get_prop "error" data) then get_prop "error" data
        else JStr "Bilinmeyen hata")
  /\ get_prop "timestamp" (Chat.errorMessage data t) = JStr (toISOString t)
  /\ (four_digit_year t -> iso8601 (toISOString t)).
Proof.
  repeat split; try reflexivity. apply toISOString_iso8601.
Qed.


(** X17.  A [connection_established] frame marks the chat connected.  When
    it carries a message, the timeline is replaced by the welcome message
    alone, whose content is that message: the default welcome text is never
    shown.  When it carries none, the timeline is kept. *)
Theorem greeting_replaces_timeline data t st :
  Chat.isConnected <$> Chat.receive "connection_established" data t st = Some true
  /\ (truthy (get_prop "message" data) = true ->
      Chat.messages <$> Chat.receive "connection_established" data t st
      = Some [Chat.welcomeMessage data t]
      /\ get_prop "content" (Chat.welcomeMessage data t) = get_prop "message" data)
  /\ (truthy (get_prop "message" data) = false ->
      Chat.messages <$> Chat.receive "connection_established" data t st
      = Some (Chat.messages st)).
Proof.
  rewrite (receive_unfold _ Chat.on_connection_established) by reflexivity.
  unfold Chat.on_connection_established.
  destruct (truthy (get_prop "message" data)) eqn:Hm; simpl.
  - repeat split; try discriminate. unfold js_or. now rewrite Hm.
  - repeat split; discriminate.
Qed.

(** X18.  Nothing clears the connected flag of the chat: no callback, not
    sending, no key, no typing.  Once a [connection_established] frame has
    set it, it stays set, also when the transport is closed. *)
Theorem connected_flag_is_never_cleared st :
  Chat.isConnected st = true ->
  (forall tag data t st',
      Chat.receive tag data t st = Some st' -> Chat.isConnected st' = true)
  /\ (forall w, Chat.isConnected (Chat.handleSendMessage st w).1 = true)
  /\ (forall key shiftKey w,
        Chat.isConnected (Chat.handleKeyPress key shiftKey st w).1 = true)
  /\ (forall text, Chat.isConnected (Chat.type_text text st) = true).
Proof.
  intros Hflag.
  assert (Hsend : forall w, Chat.isConnected (Chat.handleSendMessage st w).1 = true).
  { intros w. unfold Chat.handleSendMessage.
    destruct (_ || _ || _); exact Hflag. }
  split; [|split; [exact Hsend|split]].
  - intros tag data t st'. unfold Chat.receive.
    destruct (list_to_map Chat.subscriptions !! tag) as [callback|] eqn:Hcb;
      [|now intros [= <-]].
    apply elem_of_list_to_map_2 in Hcb.
    unfold Chat.subscriptions in Hcb. rewrite !elem_of_cons, elem_of_nil in Hcb.
    repeat (destruct Hcb as [Hcb|Hcb]); try contradiction; simplify_eq;
      unfold Chat.on_connection_established, Chat.on_message, Chat.on_message_history,
        Chat.on_typing, Chat.on_typing_stop, Chat.on_error;
      repeat match goal with |- context [if ?c then _ else _] => destruct c end;
      simpl; try destruct (get_prop "messages" data); simpl;
      intros H; simplify_eq; first [exact Hflag | reflexivity].
  - intros key shiftKey w. unfold Chat.handleKeyPress.
    destruct (_ && _); [apply Hsend | exact Hflag].
  - intros text. exact Hflag.
Qed.

(** ** Sending from the chat *)

(** X19.  When the chat sends (the input is not blank, the service is
    stored, the chat is marked connected and the service is connected), one
    [message] frame goes out on the current socket.  Its content is the input
    without the white space around it, so it is never empty and neither
    begins nor ends with white space; its metadata is an object whose
    [provider] is undefined.  The input field is emptied, and the timeline is
    left as it is: the text the user sent is not put into it. *)
Theorem chat_sends_trimmed_text st w s :
  Trim.trim (Chat.inputValue st) <> EmptyString ->
  Chat.wsService st = true ->
  Chat.isConnected st = true ->
  ws (svc w) = Some s ->
  ws_is_open w = true ->
  Chat.inputValue (Chat.handleSendMessage st w).1 = EmptyString
  /\ Chat.messages (Chat.handleSendMessage st w).1 = Chat.messages st
  /\ Trim.trimmed (Trim.trim (Chat.inputValue st))
  /\ exists frame,
       sent (env (Chat.handleSendMessage st w).2) = (sent (env w) ++ [(s, frame)])%list
       /\ get_prop "type" frame = JStr "message"
       /\ get_prop "content" frame = JStr (Trim.trim (Chat.inputValue st))
       /\ get_prop "metadata" frame = JObj [("provider", JUndefined)].
Proof.
  intros Htext Hsvc Hflag Hs Hopen.
  unfold Chat.handleSendMessage. rewrite Hsvc, Hflag.
  destruct (String.eqb_spec (Trim.trim (Chat.inputValue st)) EmptyString) as [E|_];
    [contradiction|].
  simpl. repeat split; try apply trim_trimmed.
  unfold sendMessage. rewrite Hs, Hopen. eexists. split; [reflexivity|].
  now repeat split.
Qed.

(** X20.  Sending does nothing at all, to the component and to the service,
    when the input is empty or only white space, when the service has not
    been stored yet, or when the chat is not marked connected.  A key press
    sends only when it is Enter without Shift. *)
Theorem chat_send_guard st w :
  (Trim.trim (Chat.inputValue st) = EmptyString
   \/ Chat.wsService st = false \/ Chat.isConnected st = false ->
   Chat.handleSendMessage st w = (st, w))
  /\ (forall key shiftKey,
        key <> "Enter" \/ shiftKey = true ->
        Chat.handleKeyPress key shiftKey st w = (st, w))
  /\ Chat.handleKeyPress "Enter" false st w = Chat.handleSendMessage st w.
Proof.
  split; [|split].
  - unfold Chat.handleSendMessage. intros [-> | [-> | ->]]; simpl;
      rewrite ?orb_true_r; reflexivity.
  - intros key shiftKey [Hkey | ->]; unfold Chat.handleKeyPress.
    + destruct (String.eqb_spec key "Enter"); [contradiction | reflexivity].
    + now rewrite andb_false_r.
  - reflexivity.
Qed.

(** X21.  What the user types after the transport has closed is lost.  A
    close event leaves the service without a connection, and the chat still
    marked connected; sending then empties the input field although no frame
    goes out and nothing is put into the timeline: the service only writes
    its error line to the console. *)
Theorem text_sent_after_close_is_lost st w s sk code reason :
  Trim.trim (Chat.inputValue st) <> EmptyString ->
  Chat.wsService st = true ->
  Chat.isConnected st = true ->
  sockets (env w) !! s = Some sk ->
  isConnected (step w (EvClose s code reason)) = false
  /\ Chat.handleSendMessage st (step w (EvClose s code reason))
     = (Chat.setInputValue EmptyString st,
        console_write Error [JStr "WebSocket is not connected"]
          (step w (EvClose s code reason)))
  /\ sent (env (Chat.handleSendMessage st (step w (EvClose s code reason))).2)
     = sent (env w)
  /\ Chat.messages (Chat.handleSendMessage st (step w (EvClose s code reason))).1
     = Chat.messages st.
Proof.
  intros Htext Hsvc Hflag Hsk.
  assert (Hnone : ws (svc (step w (EvClose s code reason))) = None).
  { simpl. rewrite Hsk. unfold onclose. simpl. now destruct (_ <? _). }
  assert (Hsent : sent (env (step w (EvClose s code reason))) = sent (env w)).
  { simpl. rewrite Hsk. unfold onclose. simpl. now destruct (_ <? _). }
  assert (Hsend : Chat.handleSendMessage st (step w (EvClose s code reason))
            = (Chat.setInputValue EmptyString st,
               console_write Error [JStr "WebSocket is not connected"]
                 (step w (EvClose s code reason)))).
  { unfold Chat.handleSendMessage. rewrite Hsvc, Hflag.
    destruct (String.eqb_spec (Trim.trim (Chat.inputValue st)) EmptyString) as [E|_];
      [contradiction|].
    simpl orb. cbv iota. unfold sendMessage. now rewrite Hnone. }
  split; [unfold isConnected; now rewrite Hnone|].
  split; [exact Hsend|]. rewrite Hsend. simpl fst. simpl snd.
  split; [exact Hsent | reflexivity].
Qed.

(** ** The life of the component *)



(** * The request/response service *)


(** * Code blocks *)

Section CodeBlocks.

Import Markdown.

Lemma word_prefix_word l : Forall (fun a => word_char a = true) (word_prefix l).
Proof.
  induction l as [|a l IH]; simpl; [constructor|].
  destruct (word_char a) eqn:E; constructor; assumption.
Qed.

Lemma word_prefix_app w rest :
  Forall (fun a => word_char a = true) w ->
  match rest with
  | a :: _ => word_char a = false
  | [] => True
  end ->
  word_prefix (w ++ rest) = w.
Proof.
  intros Hw Hrest. induction Hw as [|a w Ha _ IH]; simpl.
  - destruct rest as [|a rest]; [reflexivity|]. simpl. now rewrite Hrest.
  - now rewrite Ha, IH.
Qed.

Lemma after_prefix_app p l : after_prefix p (p ++ l) = Some l.
Proof.
  induction p as [|a p IH]; simpl; [now destruct l|].
  now rewrite Ascii.eqb_refl.
Qed.

Lemma first_language_word l : Forall (fun a => word_char a = true) (first_language l).
Proof.
  induction l as [|a l IH]; [constructor|].
  cbn [first_language].
  destruct (after_prefix _ (a :: l)) as [tail|]; [|exact IH].
  pose proof (word_prefix_word tail) as Hw.
  destruct (word_prefix tail); [exact IH | exact Hw].
Qed.

End CodeBlocks.

(** X24.  The language of a code block is what follows the first
    [language-] in the class name, as far as letters, digits and underscores
    go: for the class [language-] followed by a word and then nothing or a
    character of another kind, it is that word (so [language-c++] gives
    [c]).  Whatever the class name, the language consists of such characters
    only; without a class name there is none; and a block is shown
    highlighted only if it is not inline and has a language. *)
Theorem language_of_code_block :
  (forall w rest,
      w <> [] ->
      Forall (fun a => Markdown.word_char a = true) w ->
      match rest with
      | a :: _ => Markdown.word_char a = false
      | [] => True
      end ->
      Markdown.language
        (Some (String.string_of_list_ascii
                 (String.list_ascii_of_string "language-" ++ w ++ rest)))
      = String.string_of_list_ascii w)
  /\ (forall className,
        Forall (fun a => Markdown.word_char a = true)
          (String.list_ascii_of_string (Markdown.language className)))
  /\ Markdown.language None = EmptyString
  /\ Markdown.language (Some EmptyString) = EmptyString
  /\ (forall inline className,
        Markdown.highlighted inline className = true ->
        inline = false /\ Markdown.language className <> EmptyString).
Proof.
  split; [|split; [|split; [reflexivity|split; [reflexivity|]]]].
  - intros w rest Hne Hw Hrest. unfold Markdown.language.
    cbv [default from_option id].
    rewrite String.list_ascii_of_string_of_list_ascii.
    f_equal.
    destruct (String.list_ascii_of_string "language-" ++ w ++ rest)%list
      as [|a l] eqn:E; [discriminate E|].
    cbn [Markdown.first_language]. rewrite <- E.
    rewrite after_prefix_app, word_prefix_app by assumption.
    destruct w; [contradiction | reflexivity].
  - intros className. unfold Markdown.language.
    rewrite String.list_ascii_of_string_of_list_ascii. apply first_language_word.
  - intros inline className H. unfold Markdown.highlighted in H.
    apply andb_true_iff in H as [Hinline Hlang].
    split; [now destruct inline|].
    apply negb_true_iff in Hlang. now apply String.eqb_neq.
Qed.

Lemma length_string_of_list l :
  String.length (String.string_of_list_ascii l) = length l.
Proof. induction l as [|a l IH]; simpl; [reflexivity | now rewrite IH]. Qed.

(** X25.  Before a code block is highlighted, one line feed at its very end
    is taken off, and no more than one: text that ends in a line feed loses
    exactly that character, and any other text is left as it is. *)
Theorem final_newline_dropped :
  (forall l,
      Markdown.drop_final_newline
        (String.string_of_list_ascii (l ++ [Ascii.ascii_of_nat 10]))
      = String.string_of_list_ascii l)
  /\ (forall s,
        match rev (String.list_ascii_of_string s) with
        | a :: _ => Ascii.nat_of_ascii a <> 10%nat
        | [] => True
        end ->
        Markdown.drop_final_newline s = s)
  /\ (forall s,
        (String.length s - 1 <= String.length (Markdown.drop_final_newline s))%nat).
Proof.
  split; [|split].
  - intros l. unfold Markdown.drop_final_newline.
    rewrite String.list_ascii_of_string_of_list_ascii, rev_app_distr. simpl.
    now rewrite rev_involutive.
  - intros s H. unfold Markdown.drop_final_newline.
    destruct (rev (String.list_ascii_of_string s)) as [|a before]; [reflexivity|].
    destruct (Nat.eqb_spec (Ascii.nat_of_ascii a) 10); [contradiction | reflexivity].
  - intros s. unfold Markdown.drop_final_newline.
    destruct (rev (String.list_ascii_of_string s)) as [|a before] eqn:Hrev; [lia|].
    destruct (Ascii.nat_of_ascii a =? 10)%nat; [|lia].
    assert (Hlen : String.length s = S (length before)).
    { rewrite <- (String.string_of_list_ascii_of_string s) at 1.
      rewrite length_string_of_list.
      rewrite <- (length_rev (String.list_ascii_of_string s)), Hrev. reflexivity. }
    rewrite Hlen, length_string_of_list, length_rev. lia.
Qed.

(** * Retries at work *)

(** X26.  A retry does reconnect.  When a socket closes while budget is
    left, one timer is set, of the base delay times the new attempt number;
    when that timer expires, the client constructs one new socket, holds it
    and is connecting again, and the timer is gone. *)
Theorem retry_reconnects w s sk code reason :
  sockets (env w) !! s = Some sk ->
  reconnectAttempts (svc w) < maxReconnectAttempts (svc w) ->
  timers (env (step w (EvClose s code reason)))
    = (timers (env w) ++ [reconnectDelay (svc w) * (reconnectAttempts (svc w) + 1)])%list
  /\ isConnected (step w (EvClose s code reason)) = false
  /\ timers (env (step (step w (EvClose s code reason)) (EvTimer (length (timers (env w))))))
     = timers (env w)
  /\ length (sockets (env (step (step w (EvClose s code reason))
                             (EvTimer (length (timers (env w)))))))
     = S (length (sockets (env w)))
  /\ ws (svc (step (step w (EvClose s code reason)) (EvTimer (length (timers (env w))))))
     = Some (length (sockets (env w)))
  /\ isConnecting (svc (step (step w (EvClose s code reason))
                          (EvTimer (length (timers (env w)))))) = true
  /\ reconnectAttempts (svc (step (step w (EvClose s code reason))
                               (EvTimer (length (timers (env w))))))
     = reconnectAttempts (svc w) + 1.
Proof.
  intros Hsk Hbudget.
  set (d := reconnectDelay (svc w) * (reconnectAttempts (svc w) + 1)).
  assert (Hclose : step w (EvClose s code reason)
            = setTimeout d
                (console_write Log
                   [JStr ("Reconnecting... Attempt " ++ pretty (reconnectAttempts (svc w) + 1))]
                   (on_svc (fun s0 => set_reconnectAttempts (reconnectAttempts s0 + 1) s0)
                      (on_svc (set_ws None)
                         (on_svc (set_isConnecting false)
                            (console_write Log
                               [JStr "WebSocket closed:"; JNum code; JStr reason]
                               (alter_socket (set_close_fired ∘ set_readyState CLOSED)
                                  s w))))))).
  { simpl. rewrite Hsk. unfold onclose. simpl.
    destruct (Z.ltb_spec (reconnectAttempts (svc w)) (maxReconnectAttempts (svc w)));
      [reflexivity | lia]. }
  set (w1 := step w (EvClose s code reason)) in *.
  assert (Htimers : timers (env w1) = (timers (env w) ++ [d])%list)
    by (rewrite Hclose; reflexivity).
  split; [exact Htimers|].
  split; [rewrite Hclose; reflexivity|].
  assert (Hfire : step w1 (EvTimer (length (timers (env w))))
            = connect ByTimer
                (on_env (fun e => set_timers (delete (length (timers (env w))) (timers e)) e)
                   w1)).
  { simpl. rewrite Htimers, list_lookup_middle by reflexivity. reflexivity. }
  rewrite Hfire.
  set (w2 := on_env (fun e => set_timers (delete (length (timers (env w))) (timers e)) e) w1).
  assert (Hidle : isConnecting (svc w2) = false) by (unfold w2; rewrite Hclose; reflexivity).
  assert (Hclosed : ws_is_open w2 = false) by (unfold w2; rewrite Hclose; reflexivity).
  destruct (connect_constructs ByTimer w2 Hidle Hclosed) as (Hhandle & Hlen & Hbusy).
  assert (Hsockets : length (sockets (env w2)) = length (sockets (env w)))
    by (unfold w2; rewrite Hclose; simpl; apply length_alter).
  rewrite Hsockets in Hhandle, Hlen.
  split.
  { unfold connect. rewrite Hidle, Hclosed. simpl.
    unfold w2. simpl. rewrite Htimers.
    assert (Hdel : forall (l : list Z) x, delete (length l) (l ++ [x])%list = l).
    { induction l as [|y l IH]; intros x; simpl; [reflexivity | now rewrite IH]. }
    apply Hdel. }
  split; [exact Hlen|]. split; [exact Hhandle|]. split; [exact Hbusy|].
  unfold connect. rewrite Hidle, Hclosed. simpl. unfold w2. rewrite Hclose. reflexivity.
Qed.

(** X27.  A timer that expires while the client is connecting or connected
    (the caller was quicker) constructs nothing: the timer is used up and the
    connection stays as it is. *)
Theorem late_timer_is_harmless w i d :
  timers (env w) !! i = Some d ->
  isConnecting (svc w) = true \/ ws_is_open w = true ->
  sockets (env (step w (EvTimer i))) = sockets (env w)
  /\ svc (step w (EvTimer i)) = svc w
  /\ timers (env (step w (EvTimer i))) = delete i (timers (env w))
  /\ length (timers (env (step w (EvTimer i)))) = pred (length (timers (env w)))
  /\ sent (env (step w (EvTimer i))) = sent (env w).
Proof.
  intros Hi Hbusy. simpl. rewrite Hi. unfold reconnect_timer, connect.
  assert (Hguard : isConnecting (svc w) || ws_is_open w = true)
    by (apply orb_true_iff; exact Hbusy).
  change (isConnecting (svc (on_env _ w))) with (isConnecting (svc w)).
  change (ws_is_open (on_env _ w)) with (ws_is_open w).
  rewrite Hguard. simpl. repeat split.
  rewrite length_delete by eauto. lia.
Qed.

(** X28.  A frame whose tag is [*] itself reaches the wildcard handler
    twice: once as the handler of its tag and, when that call returns and the
    handler is still registered, once more as the wildcard. *)
Theorem wildcard_tag_is_dispatched_twice w data g w1 g' :
  get_type data = Some (JStr "*") ->
  messageHandlers (svc w) !! "*" = Some g ->
  invoke (JStr "*") g data w = Returned w1 ->
  messageHandlers (svc w1) !! "*" = Some g' ->
  invoked (env (world_of (handleMessage data w)))
  = (invoked (env w) ++ [(JStr "*", data); (JStr "*", data)])%list.
Proof.
  intros Htype Hg Hrun Hg'.
  unfold handleMessage. rewrite Htype. simpl handlers_get. rewrite Hg, Hrun.
  simpl handlers_get. rewrite Hg'.
  assert (H1 : invoked (env w1) = (invoked (env w) ++ [(JStr "*", data)])%list).
  { apply (f_equal (fun o => invoked (env (world_of o)))) in Hrun.
    unfold invoke in Hrun. now rewrite run_handler_invoked in Hrun. }
  unfold invoke. rewrite run_handler_invoked.
  change (invoked (env (on_env (fun e => set_invoked (invoked e ++ [(JStr "*", data)]) e) w1)))
    with (invoked (env w1) ++ [(JStr "*", data)])%list.
  rewrite H1, <- app_assoc. reflexivity.
Qed.

(** * The further statements at concrete inputs *)

Lemma handle_names_a_socket_witness :
  ws (svc (run (boot "abc123" None 1700000000000) Scenario.hasty)) = Some 2%nat
  /\ is_Some (sockets (env (run (boot "abc123" None 1700000000000) Scenario.hasty)) !! 2%nat).
Proof.
  split; [reflexivity|].
  exact (proj1 (handle_names_a_socket "abc123" None 1700000000000 Scenario.hasty)
           2%nat eq_refl).
Defined.

Lemma transport_is_silent_witness :
  forallb transport_event Later.outage = true
  /\ messageHandlers (svc (run Later.subscribed Later.outage))
     = messageHandlers (svc Later.subscribed).
Proof.
  split; [reflexivity|].
  exact (proj1 (transport_is_silent Later.subscribed Later.outage eq_refl)).
Defined.

Lemma no_retry_once_exhausted_witness :
  maxReconnectAttempts (svc Later.exhausted) <= reconnectAttempts (svc Later.exhausted)
  /\ no_open Later.by_hand = true
  /\ scheduled (env (run Later.exhausted Later.by_hand)) = scheduled (env Later.exhausted).
Proof.
  assert (Hspent : maxReconnectAttempts (svc Later.exhausted)
                   <= reconnectAttempts (svc Later.exhausted))
    by (vm_compute; discriminate).
  split; [exact Hspent|]. split; [reflexivity|].
  exact (proj1 (no_retry_once_exhausted Later.exhausted Later.by_hand Hspent eq_refl)).
Defined.

Lemma error_leaves_retry_to_caller_witness :
  sockets (env Later.connecting) !! 0%nat
    = Some (mkSocket "ws://localhost:12000/ws/abc123" CONNECTING 0 false)
  /\ isConnecting (svc (step Later.connecting (EvError 0))) = false.
Proof.
  split; [reflexivity|].
  exact (proj1 (proj2 (proj2
           (error_leaves_retry_to_caller Later.connecting 0%nat
              (mkSocket "ws://localhost:12000/ws/abc123" CONNECTING 0 false) eq_refl)))).
Defined.

Lemma disconnect_twice_and_while_connecting_witness :
  isConnecting (svc Later.connecting) = true
  /\ isConnected (connect ByCaller (disconnect Later.connecting)) = false.
Proof.
  split; [reflexivity|].
  exact (proj1 (proj2 (proj2 (proj2 (disconnect_twice_and_while_connecting Later.connecting))
                         eq_refl ByCaller))).
Defined.

Lemma registration_round_trip_witness :
  "message" <> "typing"
  /\ handlers_get (JStr "message")
       (onMessage "typing" (Scenario.noting "typing") Later.subscribed)
     = handlers_get (JStr "message") Later.subscribed.
Proof.
  assert (Hne : "message" <> "typing") by discriminate.
  split; [exact Hne|].
  exact (proj1 (proj1 (proj2 (proj2 (proj2 (proj2
           (registration_round_trip Later.subscribed "typing"
              (Scenario.noting "typing") (Scenario.noting "again"))))))
           "message" Hne)).
Defined.

Lemma ping_and_history_request_witness :
  isConnected Scenario.idle = false /\ ping Scenario.idle = Scenario.idle.
Proof.
  split; [reflexivity|].
  exact (proj1 (proj1 (ping_and_history_request Scenario.idle) eq_refl)).
Defined.


Lemma chat_callbacks_leave_connection_witness :
  messageHandlers (svc Visit.live) = chat_handlers
  /\ connection (onmessage (Json Sample.greeting) Visit.live) = connection Visit.live.
Proof.
  split; [reflexivity|].
  exact (proj1 (chat_callbacks_leave_connection Visit.live (Json Sample.greeting) eq_refl)).
Defined.

Lemma history_replaces_timeline_witness :
  get_prop "messages" Visit.past
    = JArr [JObj [("type", JStr "user"); ("content", JStr "hi")];
            JObj [("type", JStr "assistant"); ("content", JStr "hello")]]
  /\ Chat.messages <$> Chat.receive "message_history" Visit.past 0 Visit.typed
     = Some [JObj [("type", JStr "user"); ("content", JStr "hi")];
             JObj [("type", JStr "assistant"); ("content", JStr "hello")]].
Proof.
  split; [reflexivity|].
  rewrite (proj1 (proj1 (history_replaces_timeline Visit.past 0 Visit.typed) _ eq_refl)).
  reflexivity.
Defined.

Lemma error_always_shown_witness :
  four_digit_year 1700000000000 /\ iso8601 (toISOString 1700000000000).
Proof.
  assert (Hyear : four_digit_year 1700000000000) by (unfold four_digit_year; lia).
  split; [exact Hyear|].
  exact (proj2 (proj2 (proj2 (proj2
           (error_always_shown Visit.failure 1700000000000 Visit.typed)))) Hyear).
Defined.


Lemma greeting_replaces_timeline_witness :
  truthy (get_prop "message" Sample.greeting) = false
  /\ Chat.messages <$> Chat.receive "connection_established" Sample.greeting 0 Visit.typed
     = Some (Chat.messages Visit.typed).
Proof.
  split; [reflexivity|].
  exact (proj2 (proj2 (greeting_replaces_timeline Sample.greeting 0 Visit.typed)) eq_refl).
Defined.

Lemma connected_flag_is_never_cleared_witness :
  Chat.isConnected Visit.typed = true
  /\ Chat.isConnected (Chat.handleSendMessage Visit.typed Visit.live).1 = true.
Proof.
  split; [reflexivity|].
  exact (proj1 (proj2 (connected_flag_is_never_cleared Visit.typed eq_refl)) Visit.live).
Defined.

Lemma chat_sends_trimmed_text_witness :
  Trim.trim (Chat.inputValue Visit.typed) = "hello there"
  /\ Chat.inputValue (Chat.handleSendMessage Visit.typed Visit.live).1 = EmptyString.
Proof.
  split; [reflexivity|].
  exact (proj1 (chat_sends_trimmed_text Visit.typed Visit.live 0%nat
                  ltac:(discriminate) eq_refl eq_refl eq_refl eq_refl)).
Defined.

Lemma chat_send_guard_witness :
  Trim.trim (Chat.inputValue chat_mounted) = EmptyString
  /\ Chat.handleSendMessage chat_mounted Visit.live = (chat_mounted, Visit.live).
Proof.
  split; [reflexivity|].
  exact (proj1 (chat_send_guard chat_mounted Visit.live) (or_introl eq_refl)).
Defined.

Lemma text_sent_after_close_is_lost_witness :
  sockets (env Visit.live) !! 0%nat
    = Some (mkSocket "ws://localhost:12000/ws/abc123" OPEN 0 false)
  /\ sent (env (Chat.handleSendMessage Visit.typed
                  (step Visit.live (EvClose 0 1006 Scenario.no_reason))).2)
     = sent (env Visit.live).
Proof.
  split; [reflexivity|].
  exact (proj1 (proj2 (proj2
           (text_sent_after_close_is_lost Visit.typed Visit.live 0%nat
              (mkSocket "ws://localhost:12000/ws/abc123" OPEN 0 false)
              1006 Scenario.no_reason ltac:(discriminate) eq_refl eq_refl eq_refl)))).
Defined.



Lemma language_of_code_block_witness :
  Markdown.highlighted false (Some "language-js") = true
  /\ Markdown.language (Some "language-js") <> EmptyString.
Proof.
  split; [reflexivity|].
  exact (proj2 (proj2 (proj2 (proj2 (proj2 language_of_code_block)))
                  false (Some "language-js") eq_refl)).
Defined.

Lemma final_newline_dropped_witness :
  Markdown.drop_final_newline "x = 1" = "x = 1".
Proof.
  exact (proj1 (proj2 final_newline_dropped) "x = 1" ltac:(simpl; discriminate)).
Defined.

Lemma retry_reconnects_witness :
  sockets (env Scenario.opened) !! 0%nat
    = Some (mkSocket "ws://localhost:12000/ws/abc123" OPEN 0 false)
  /\ reconnectAttempts (svc Scenario.opened) < maxReconnectAttempts (svc Scenario.opened)
  /\ timers (env (step Scenario.opened (EvClose 0 1006 Scenario.no_reason)))
     = (timers (env Scenario.opened)
        ++ [reconnectDelay (svc Scenario.opened)
            * (reconnectAttempts (svc Scenario.opened) + 1)])%list.
Proof.
  assert (Hbudget : reconnectAttempts (svc Scenario.opened)
                    < maxReconnectAttempts (svc Scenario.opened)) by reflexivity.
  split; [reflexivity|]. split; [exact Hbudget|].
  exact (proj1 (retry_reconnects Scenario.opened 0%nat
                  (mkSocket "ws://localhost:12000/ws/abc123" OPEN 0 false)
                  1006 Scenario.no_reason eq_refl Hbudget)).
Defined.

Lemma late_timer_is_harmless_witness :
  timers (env (connect ByCaller Scenario.waiting)) !! 0%nat = Some 1000
  /\ isConnecting (svc (connect ByCaller Scenario.waiting)) = true
  /\ sockets (env (step (connect ByCaller Scenario.waiting) (EvTimer 0)))
     = sockets (env (connect ByCaller Scenario.waiting)).
Proof.
  split; [reflexivity|]. split; [reflexivity|].
  exact (proj1 (late_timer_is_harmless (connect ByCaller Scenario.waiting) 0%nat 1000
                  eq_refl (or_introl eq_refl))).
Defined.

Lemma wildcard_tag_is_dispatched_twice_witness :
  get_type (JObj [("type", JStr "*")]) = Some (JStr "*")
  /\ invoked (env (world_of (handleMessage (JObj [("type", JStr "*")]) Scenario.listening)))
     = (invoked (env Scenario.listening)
        ++ [(JStr "*", JObj [("type", JStr "*")]); (JStr "*", JObj [("type", JStr "*")])])%list.
Proof.
  split; [reflexivity|].
  exact (wildcard_tag_is_dispatched_twice Scenario.listening (JObj [("type", JStr "*")])
           (Scenario.noting "any")
           (world_of (invoke (JStr "*") (Scenario.noting "any")
                        (JObj [("type", JStr "*")]) Scenario.listening))
           (Scenario.noting "any") eq_refl eq_refl eq_refl eq_refl).
Defined.
